(** * The audio-transcription handler of google-functions/transcript/main.py

    A shallow embedding of [process_audio] and [transcribe_audio] and the
    properties of the handler: which external calls it makes, in which
    order, what it leaves in the storage container and in local ephemeral
    storage, and how failures are reported.

    The handler is straight-line Python around three external services
    (object storage, an [ffmpeg] subprocess and the speech API).  The
    services are not part of the program: they are an environment [Env]
    that answers each call, and the program is a function from the
    environment and a world (container contents, local files, the trace of
    effects so far) to an outcome. *)

From stdpp Require Import gmap strings list fin_maps.
From Stdlib Require Import ZArith Ascii String Lia.

Local Open Scope string_scope.
Local Open Scope list_scope.

(** ** Python string operations used by the handler *)

(** A Python [str] is modelled by the [string] of its UTF-8 bytes, the
    reading Rocq gives to a string literal.  Splitting at a dot, substring
    search and emptiness are the same on bytes as on characters; slicing
    has to count characters, and lowering is restricted as said below. *)
Module PyStr.

(** [s.split(sep)] for a one-character separator: the pieces between the
    occurrences of [sep], never an empty list. *)
Fixpoint split (sep : ascii) (s : string) : list string :=
  match s with
  | EmptyString => [EmptyString]
  | String c s' =>
      if Ascii.eqb c sep then EmptyString :: split sep s'
      else match split sep s' with
           | [] => [String c EmptyString]
           | piece :: pieces => String c piece :: pieces
           end
  end.

(** [l[-1]] on a list of strings; [split] never returns the empty list,
    so the default is never used by the handler. *)
Definition last_item (l : list string) : string := List.last l EmptyString.

(** [c.lower()] on one character of the ASCII range; characters outside
    [A-Z] are returned as they are.  (Python lowers non-ASCII letters
    too; none of them lowers to a letter of [wav], [m4a] or [mp3].) *)
Definition lower_ascii (c : ascii) : ascii :=
  let n := nat_of_ascii c in
  if (65 <=? n)%nat && (n <=? 90)%nat then ascii_of_nat (n + 32) else c.

Fixpoint lower (s : string) : string :=
  match s with
  | EmptyString => EmptyString
  | String c s' => String (lower_ascii c) (lower s')
  end.

(** [needle in s]: [needle] occurs in [s] as a substring. *)
Fixpoint contains (needle s : string) : bool :=
  String.prefix needle s
  || match s with
     | EmptyString => false
     | String _ s' => contains needle s'
     end.

(** A byte [10xxxxxx] continues the character begun before it. *)
Definition is_continuation (c : ascii) : bool :=
  let n := nat_of_ascii c in (128 <=? n)%nat && (n <? 192)%nat.

(** [len(s)]: the number of characters, one per byte that begins one. *)
Fixpoint chars (s : string) : nat :=
  match s with
  | EmptyString => O
  | String c s' => if is_continuation c then chars s' else S (chars s')
  end.

(** [s[:n]]: the first [n] characters, each with all of its bytes. *)
Fixpoint take (n : nat) (s : string) : string :=
  match s with
  | EmptyString => EmptyString
  | String c s' =>
      if is_continuation c then String c (take n s')
      else match n with
           | O => EmptyString
           | S n' => String c (take n' s')
           end
  end.

(** [sep.join(l)] *)
Definition join (sep : string) (l : list string) : string := String.concat sep l.

(** [not s]: a string is falsy exactly when it is empty. *)
Definition is_empty (s : string) : bool :=
  match s with EmptyString => true | _ => false end.

Definition newline : string := String (ascii_of_nat 10) EmptyString.

End PyStr.

(** ** Data of the external interfaces *)

(** The trigger payload is a Python dict; the handler reads the keys
    [bucket] and [name]. *)
Abbreviation Event := (gmap string string).

(** [speech.RecognitionConfig.AudioEncoding], the two members in use. *)
Inductive AudioEncoding := LINEAR16 | MP3.

Record RecognitionConfig := {
  encoding : AudioEncoding;
  sample_rate_hertz : Z;
  language_code : string;
  enable_automatic_punctuation : bool
}.

(** The response of the speech API: an ordered list of results, each with
    its ranked alternatives. *)
Record Alternative := { transcript : string }.
Record Result := { alternatives : list Alternative }.
Record Response := { results : list Result }.

(** Operation metadata; [progress_percent] is [None] when the object has
    no such attribute. *)
Record Metadata := { progress_percent : option Z }.

Inductive value_error :=
| MissingBucketOrName (event : Event)
| UnsupportedFileFormat (file_extension : string).

(** The exceptions of the handling path; all of them are subclasses of
    Python's [Exception]. *)
Inductive exn :=
| KeyError (key : string)
| ValueError (what : value_error)
| IndexError
| CalledProcessError (returncode : Z) (cmd : list string)
| OSError (path : string)
| NotFound (bucket key : string)
| GoogleAPIError (message : string)
| TimeoutError.

(** The handle of a long-running recognition: what the [i]-th call of
    [done()] answers, the metadata visible at that poll, and what
    [result(timeout)] gives. *)
Record Operation := {
  op_done : nat -> bool;
  op_metadata : nat -> option Metadata;
  op_result : Z -> exn + Response
}.

(** One line per [print] of the source. *)
Inductive log_line :=
| EventPayload (event : Event)
| ProcessingFile (bucket_name file_name : string)
| SkippingConverted (file_name : string)
| DownloadingTo (local_file : string)
| AlreadyWav
| TranscriptionSaved (bucket_name transcription_blob_name : string)
| ConvertingM4a
| FfmpegFailed (e : exn)
| UploadingConverted (local_converted : string)
| FileIsMp3
| StartingTranscription
| ErrorProcessingFile (e : exn)
| StartingTranscriptionFor (gcs_uri : string)
| TranscribingAudioFile (gcs_uri : string)
| UsingEncoding (enc : AudioEncoding)
| TranscriptionConfig (config : RecognitionConfig)
| TranscriptionAudio (gcs_uri : string)
| WaitingForCompletion
| Progress (percent : Z)
| WaitingForProgress
| OperationCompleted
| TranscriptionPreview (first_chars : string)
| ErrorDuringTranscription (e : exn).

(** Everything the handler does to the outside, in the order it happens. *)
Inductive effect :=
| Print (line : log_line)
| Download (bucket key path : string)
| Run (argv : list string)
| Remove (path : string)
| UploadFromFilename (bucket key path : string)
| UploadFromString (bucket key data content_type : string)
| LoggingBasicConfig
| LongRunningRecognize (config : RecognitionConfig) (uri : string)
| Done (poll : nat)
| Sleep (seconds : Z)
| FetchResult (timeout : Z).

(** The world of one invocation: the objects of the storage service, keyed
    by container and object key, the files of local storage, and the trace. *)
Record World := {
  objects : gmap (string * string) string;
  files : gmap string string;
  trace : list effect
}.

(** What a subprocess does: it cannot be started, or it exits with a code
    and leaves the local files as [files_after]. *)
Inductive proc_outcome :=
| ProcFault (e : exn)
| ProcExit (returncode : Z) (files_after : gmap string string).

(** The services as the handler sees them.  [download_leaves] is what a
    download that fails leaves at its local target: no file, or a file
    with the bytes written so far (the library opens the target for
    writing before it transfers). *)
Record Env := {
  download_fault : string -> string -> option exn;
  download_leaves : string -> string -> option string;
  upload_fault : string -> string -> option exn;
  run_process : list string -> gmap string string -> proc_outcome;
  recognize : RecognitionConfig -> string -> exn + Operation
}.

(** ** Computations: world passing, exceptions, and fuel for the one loop *)

Inductive outcome (A : Type) :=
| Returned (a : A) (w : World)
| Raised (e : exn) (w : World)
| OutOfFuel.
Arguments Returned {A} a w.
Arguments Raised {A} e w.
Arguments OutOfFuel {A}.

Definition M (A : Type) : Type := World -> outcome A.

Definition ret {A} (a : A) : M A := fun w => Returned a w.

Definition raise {A} (e : exn) : M A := fun w => Raised e w.

Definition bind {A B} (m : M A) (k : A -> M B) : M B :=
  fun w => match m w with
           | Returned a w' => k a w'
           | Raised e w' => Raised e w'
           | OutOfFuel => OutOfFuel
           end.

(** [try: m except Exception as e: handler e] *)
Definition try_except {A} (m : M A) (handler : exn -> M A) : M A :=
  fun w => match m w with
           | Raised e w' => handler e w'
           | o => o
           end.

Declare Scope py_scope.
Delimit Scope py_scope with py.
Notation "x <- m ;; k" := (bind m (fun x => k))
  (at level 20, m at level 99, k at level 200, only parsing) : py_scope.
Notation "m ;; k" := (bind m (fun _ => k))
  (at level 100, k at level 200, only parsing, right associativity) : py_scope.
Local Open Scope py_scope.

Definition emit (e : effect) : M unit :=
  fun w => Returned tt {| objects := objects w; files := files w; trace := trace w ++ [e] |}.

Definition print (line : log_line) : M unit := emit (Print line).

(** ** The external operations *)

Definition set_files (fs : gmap string string) : M unit :=
  fun w => Returned tt {| objects := objects w; files := fs; trace := trace w |}.

Definition set_objects (os : gmap (string * string) string) : M unit :=
  fun w => Returned tt {| objects := os; files := files w; trace := trace w |}.

Definition get_world : M World := fun w => Returned w w.

(** [event[key]] *)
Definition getitem (event : Event) (key : string) : M string :=
  match event !! key with
  | Some v => ret v
  | None => raise (KeyError key)
  end.

(** The local files after a download to [path] that failed. *)
Definition files_after_failed_download (env : Env) (bucket key path : string)
    (fs : gmap string string) : gmap string string :=
  match download_leaves env bucket key with
  | Some partial => <[path := partial]> fs
  | None => delete path fs
  end.

(** A download that ends with the exception [e]. *)
Definition download_failed (env : Env) (bucket key path : string) (e : exn) : M unit :=
  w <- get_world ;;
  set_files (files_after_failed_download env bucket key path (files w)) ;;
  raise e.

(** [bucket.blob(key).download_to_filename(path)] *)
Definition download_to_filename (env : Env) (bucket key path : string) : M unit :=
  emit (Download bucket key path) ;;
  w <- get_world ;;
  match download_fault env bucket key with
  | Some e => download_failed env bucket key path e
  | None =>
      match objects w !! (bucket, key) with
      | None => download_failed env bucket key path (NotFound bucket key)
      | Some data => set_files (<[path := data]> (files w))
      end
  end.

(** [bucket.blob(key).upload_from_filename(path)] *)
Definition upload_from_filename (env : Env) (bucket key path : string) : M unit :=
  emit (UploadFromFilename bucket key path) ;;
  w <- get_world ;;
  match files w !! path with
  | None => raise (OSError path)
  | Some data =>
      match upload_fault env bucket key with
      | Some e => raise e
      | None => set_objects (<[(bucket, key) := data]> (objects w))
      end
  end.

(** [bucket.blob(key).upload_from_string(data, content_type=...)] *)
Definition upload_from_string (env : Env) (bucket key data content_type : string) : M unit :=
  emit (UploadFromString bucket key data content_type) ;;
  w <- get_world ;;
  match upload_fault env bucket key with
  | Some e => raise e
  | None => set_objects (<[(bucket, key) := data]> (objects w))
  end.

(** [subprocess.run(argv, check=True)] *)
Definition subprocess_run_check (env : Env) (argv : list string) : M unit :=
  emit (Run argv) ;;
  w <- get_world ;;
  match run_process env argv (files w) with
  | ProcFault e => raise e
  | ProcExit returncode files_after =>
      set_files files_after ;;
      if (returncode =? 0)%Z then ret tt
      else raise (CalledProcessError returncode argv)
  end.

(** [os.path.exists(path)] *)
Definition os_path_exists (path : string) : M bool :=
  w <- get_world ;;
  ret (match files w !! path with Some _ => true | None => false end).

(** [os.remove(path)] *)
Definition os_remove (path : string) : M unit :=
  emit (Remove path) ;;
  w <- get_world ;;
  match files w !! path with
  | Some _ => set_files (delete path (files w))
  | None => raise (OSError path)
  end.

(** [client.long_running_recognize(config=config, audio=audio)] *)
Definition long_running_recognize (env : Env) (config : RecognitionConfig) (uri : string)
  : M Operation :=
  emit (LongRunningRecognize config uri) ;;
  match recognize env config uri with
  | inl e => raise e
  | inr operation => ret operation
  end.

(** [operation.done()], at the [i]-th poll *)
Definition operation_done (operation : Operation) (i : nat) : M bool :=
  emit (Done i) ;; ret (op_done operation i).

(** [time.sleep(seconds)] *)
Definition time_sleep (seconds : Z) : M unit := emit (Sleep seconds).

(** [operation.result(timeout=timeout)] *)
Definition operation_result (operation : Operation) (timeout : Z) : M Response :=
  emit (FetchResult timeout) ;;
  match op_result operation timeout with
  | inl e => raise e
  | inr response => ret response
  end.

(** ** transcribe_audio (main.py, lines 102-144) *)

(** The body of the [while not operation.done()] loop, lines 127-132. *)
Definition poll_body (operation : Operation) (i : nat) : M unit :=
  let metadata := op_metadata operation i in
  match metadata with
  | Some {| progress_percent := Some percent |} => print (Progress percent)
  | _ => print WaitingForProgress
  end ;;
  time_sleep 5.

(** The loop of lines 126-132; [i] counts the polls made so far.  The
    source loop has no counter: [fuel] bounds the unfolding of the model
    only, and [OutOfFuel] stands for a loop still running. *)
Fixpoint poll_loop (fuel : nat) (operation : Operation) (i : nat) : M unit :=
  match fuel with
  | O => fun _ => OutOfFuel
  | S fuel' =>
      finished <- operation_done operation i ;;
      if finished then ret tt
      else poll_body operation i ;; poll_loop fuel' operation (S i)
  end.

(** [result.alternatives[0].transcript for result in results] (line 138);
    indexing an empty list of alternatives raises [IndexError]. *)
Fixpoint top_transcripts (rs : list Result) : M (list string) :=
  match rs with
  | [] => ret []
  | result :: rs' =>
      match alternatives result with
      | [] => raise IndexError
      | alternative :: _ =>
          rest <- top_transcripts rs' ;;
          ret (transcript alternative :: rest)
      end
  end.

(** [speech.SpeechClient()], [RecognitionAudio(uri=...)] build handles;
    [fuel] is passed to the loop. *)
Definition transcribe_audio (fuel : nat) (env : Env)
    (gcs_uri file_extension language_code : string) : M string :=
  try_except
    (emit LoggingBasicConfig ;;
     print (StartingTranscriptionFor gcs_uri) ;;
     print (TranscribingAudioFile gcs_uri) ;;
     let encoding := if String.eqb file_extension "wav" then LINEAR16 else MP3 in
     print (UsingEncoding encoding) ;;
     let config := {| encoding := encoding;
                      sample_rate_hertz := 16000;
                      language_code := language_code;
                      enable_automatic_punctuation := true |} in
     print (TranscriptionConfig config) ;;
     print (TranscriptionAudio gcs_uri) ;;
     operation <- long_running_recognize env config gcs_uri ;;
     print WaitingForCompletion ;;
     poll_loop fuel operation 0 ;;
     response <- operation_result operation 1000 ;;
     print OperationCompleted ;;
     pieces <- top_transcripts (results response) ;;
     let transcription := PyStr.join PyStr.newline pieces in
     print (TranscriptionPreview (PyStr.take 100 transcription)) ;;
     ret transcription)
    (fun e => print (ErrorDuringTranscription e) ;; raise e).

(** ** process_audio (main.py, lines 8-99) *)

Definition file_extension_of (file_name : string) : string :=
  PyStr.lower (PyStr.last_item (PyStr.split "." file_name)).

Definition ffmpeg_argv (local_file local_converted : string) : list string :=
  ["ffmpeg"; "-y"; "-i"; local_file; "-acodec"; "pcm_s16le"; "-ar"; "16000"; local_converted].

(** Lines 53-79: the [m4a] branch; it yields the updated
    [(file_extension, gcs_uri)]. *)
Definition convert_m4a (env : Env) (bucket_name file_name local_file : string)
  : M (string * string) :=
  print ConvertingM4a ;;
  let local_converted := "/tmp/" +:+ file_name +:+ "_converted.wav" in
  try_except
    (subprocess_run_check env (ffmpeg_argv local_file local_converted))
    (fun e => match e with
              | CalledProcessError _ _ => print (FfmpegFailed e) ;; raise e
              | _ => raise e
              end) ;;
  present <- os_path_exists local_file ;;
  (if present then os_remove local_file else ret tt) ;;
  print (UploadingConverted local_converted) ;;
  let converted_blob_name := file_name +:+ "_converted.wav" in
  upload_from_filename env bucket_name converted_blob_name local_converted ;;
  let file_extension := "wav" in
  let gcs_uri := "gs://" +:+ bucket_name +:+ "/" +:+ converted_blob_name in
  present <- os_path_exists local_converted ;;
  (if present then os_remove local_converted else ret tt) ;;
  ret (file_extension, gcs_uri).

(** Lines 11-96: the body of the [try].  [storage.Client()],
    [client.bucket(...)] and [bucket.blob(...)] (lines 30-32, 47, 71, 94)
    only build handles; the calls on them are the operations above. *)
Definition process_audio_body (fuel : nat) (env : Env) (event : Event) : M unit :=
  print (EventPayload event) ;;
  let language_code := "de-DE" in
  bucket_name <- getitem event "bucket" ;;
  file_name <- getitem event "name" ;;
  (if PyStr.is_empty bucket_name || PyStr.is_empty file_name
   then raise (ValueError (MissingBucketOrName event))
   else ret tt) ;;
  print (ProcessingFile bucket_name file_name) ;;
  let file_extension := file_extension_of file_name in
  if String.eqb file_extension "wav" && PyStr.contains "_converted" file_name then
    print (SkippingConverted file_name)
  else
    let local_file := "/tmp/" +:+ file_name in
    print (DownloadingTo local_file) ;;
    download_to_filename env bucket_name file_name local_file ;;
    if String.eqb file_extension "wav" then
      print AlreadyWav ;;
      let gcs_uri := "gs://" +:+ bucket_name +:+ "/" +:+ file_name in
      transcription <- transcribe_audio fuel env gcs_uri file_extension language_code ;;
      let transcription_blob_name := file_name +:+ ".txt" in
      upload_from_string env bucket_name transcription_blob_name transcription "text/plain" ;;
      print (TranscriptionSaved bucket_name transcription_blob_name)
    else
      updated <-
        (if String.eqb file_extension "m4a" then
           convert_m4a env bucket_name file_name local_file
         else if String.eqb file_extension "mp3" then
           print FileIsMp3 ;;
           ret (file_extension, "gs://" +:+ bucket_name +:+ "/" +:+ file_name)
         else
           raise (ValueError (UnsupportedFileFormat file_extension))) ;;
      let file_extension := fst updated in
      let gcs_uri := snd updated in
      print StartingTranscription ;;
      transcription <- transcribe_audio fuel env gcs_uri file_extension language_code ;;
      let transcription_blob_name := file_name +:+ ".txt" in
      upload_from_string env bucket_name transcription_blob_name transcription "text/plain" ;;
      print (TranscriptionSaved bucket_name transcription_blob_name).

(** Lines 8-99: the body inside [try], and [except Exception as e] that
    prints and falls off the end of the function. *)
Definition process_audio (fuel : nat) (env : Env) (event : Event) : M unit :=
  try_except
    (process_audio_body fuel env event)
    (fun e => print (ErrorProcessingFile e)).

(** ** Observations on worlds and traces *)

(** The world [w] after the effects [t], with containers and files as in [w]. *)
Definition after (w : World) (t : list effect) : World :=
  {| objects := objects w; files := files w; trace := trace w ++ t |}.

(** Calls to storage, the local file system, the transcoder and the
    submission of a recognition; prints, polls, sleeps and the result
    fetch are left out. *)
Definition is_service_call (e : effect) : bool :=
  match e with
  | Download _ _ _ | Run _ | Remove _ | UploadFromFilename _ _ _
  | UploadFromString _ _ _ _ | LongRunningRecognize _ _ => true
  | _ => false
  end.

Definition service_calls (t : list effect) : list effect := List.filter is_service_call t.

Definition is_upload (e : effect) : bool :=
  match e with
  | UploadFromFilename _ _ _ | UploadFromString _ _ _ _ => true
  | _ => false
  end.

Definition uploads (t : list effect) : list effect := List.filter is_upload t.

Definition is_sleep (e : effect) : bool :=
  match e with Sleep _ => true | _ => false end.

Definition sleeps (t : list effect) : list effect := List.filter is_sleep t.

Definition log_lines (t : list effect) : list log_line :=
  flat_map (fun e => match e with Print line => [line] | _ => [] end) t.

(** [path] is removed by [e]. *)
Definition is_remove_of (path : string) (e : effect) : bool :=
  match e with Remove p => String.eqb p path | _ => false end.

(** [e] uploads the object [key]. *)
Definition is_upload_of (key : string) (e : effect) : bool :=
  match e with
  | UploadFromFilename _ k _ | UploadFromString _ k _ _ => String.eqb k key
  | _ => false
  end.

(** What happens after the first effect that satisfies [p]. *)
Fixpoint events_after (p : effect -> bool) (t : list effect) : list effect :=
  match t with
  | [] => []
  | e :: t' => if p e then t' else events_after p t'
  end.

(** [path] is removed at some point after the upload of [key]. *)
Definition removed_after_upload (path key : string) (t : list effect) : bool :=
  existsb (is_remove_of path) (events_after (is_upload_of key) t).

(** The line printed at the [i]-th unfinished poll (lines 127-131). *)
Definition progress_line (operation : Operation) (i : nat) : log_line :=
  match op_metadata operation i with
  | Some {| progress_percent := Some percent |} => Progress percent
  | _ => WaitingForProgress
  end.

(** The effects of a loop that starts at poll [i], finds the operation
    unfinished [n] times and finished at poll [i + n]. *)
Fixpoint poll_events (operation : Operation) (i n : nat) : list effect :=
  match n with
  | O => [Done i]
  | S n' =>
      [Done i; Print (progress_line operation i); Sleep 5]
        ++ poll_events operation (S i) n'
  end.

(** The operation reports completion for the first time at poll [i + n]. *)
Definition first_done_from (operation : Operation) (i n : nat) : Prop :=
  (forall j, (j < n)%nat -> op_done operation (i + j) = false)
  /\ op_done operation (i + n) = true.

Definition first_done (operation : Operation) (n : nat) : Prop :=
  first_done_from operation 0 n.

(** The configuration [transcribe_audio] builds (lines 110-117). *)
Definition config_for (file_extension language_code : string) : RecognitionConfig :=
  {| encoding := if String.eqb file_extension "wav" then LINEAR16 else MP3;
     sample_rate_hertz := 16000;
     language_code := language_code;
     enable_automatic_punctuation := true |}.

(** The effects of [transcribe_audio] up to and including the result
    fetch, for an operation first done at poll [n]. *)
Definition transcribe_prefix (gcs_uri file_extension language_code : string)
    (operation : Operation) (n : nat) : list effect :=
  [LoggingBasicConfig;
   Print (StartingTranscriptionFor gcs_uri);
   Print (TranscribingAudioFile gcs_uri);
   Print (UsingEncoding (encoding (config_for file_extension language_code)));
   Print (TranscriptionConfig (config_for file_extension language_code));
   Print (TranscriptionAudio gcs_uri);
   LongRunningRecognize (config_for file_extension language_code) gcs_uri;
   Print WaitingForCompletion]
  ++ poll_events operation 0 n ++ [FetchResult 1000].

(** [pieces] are the transcripts of the first alternative of each result,
    in the order of the results. *)
Definition top_alternatives (rs : list Result) (pieces : list string) : Prop :=
  Forall2 (fun r t => transcript <$> head (alternatives r) = Some t) rs pieces.

(** The two failure conditions of the specification's taxonomy that
    concern the event and the key, as the exceptions the code raises. *)
Inductive InvalidEvent (event : Event) : exn -> Prop :=
| missing_bucket : InvalidEvent event (KeyError "bucket")
| missing_name : InvalidEvent event (KeyError "name")
| empty_identifier : InvalidEvent event (ValueError (MissingBucketOrName event)).

Definition UnsupportedFormat (file_extension : string) : exn :=
  ValueError (UnsupportedFileFormat file_extension).

(** An event that carries a non-empty container [b] and a non-empty key [n]. *)
Definition names (event : Event) (b n : string) : Prop :=
  event !! "bucket" = Some b /\ event !! "name" = Some n /\ b <> "" /\ n <> "".

(** ** Unfinished runs *)

(** The service accepted an operation that has not reported completion
    within [fuel] polls. *)
Definition polling (fuel : nat) (env : Env) : Prop :=
  exists config uri operation,
    recognize env config uri = inr operation
    /\ forall j, (j < fuel)%nat -> op_done operation j = false.

(** A computation is [steady] when it can only be unfinished inside the
    polling loop of such an operation. *)
Definition steady (fuel : nat) (env : Env) {A} (m : M A) : Prop :=
  forall w, m w = OutOfFuel -> polling fuel env.

(** ** The effects of the successful runs *)

Definition local_path (file_name : string) : string := "/tmp/" +:+ file_name.

Definition converted_name (file_name : string) : string := file_name +:+ "_converted.wav".

Definition transcript_name (file_name : string) : string := file_name +:+ ".txt".

Definition gs_uri (bucket_name key : string) : string :=
  "gs://" +:+ bucket_name +:+ "/" +:+ key.

(** Lines 11-37: up to and including the download. *)
Definition intake_events (event : Event) (b n : string) : list effect :=
  [Print (EventPayload event);
   Print (ProcessingFile b n);
   Print (DownloadingTo (local_path n));
   Download b n (local_path n)].

(** A complete, successful [transcribe_audio]. *)
Definition transcribe_events (gcs_uri file_extension : string)
    (operation : Operation) (polls : nat) (text : string) : list effect :=
  transcribe_prefix gcs_uri file_extension "de-DE" operation polls
  ++ [Print OperationCompleted; Print (TranscriptionPreview (PyStr.take 100 text))].

(** Lines 92-96 (and 45-49): the transcript is stored. *)
Definition save_events (b n text : string) : list effect :=
  [UploadFromString b (transcript_name n) text "text/plain";
   Print (TranscriptionSaved b (transcript_name n))].

Definition wav_events (event : Event) (b n : string)
    (operation : Operation) (polls : nat) (text : string) : list effect :=
  intake_events event b n
  ++ [Print AlreadyWav]
  ++ transcribe_events (gs_uri b n) "wav" operation polls text
  ++ save_events b n text.

Definition mp3_events (event : Event) (b n : string)
    (operation : Operation) (polls : nat) (text : string) : list effect :=
  intake_events event b n
  ++ [Print FileIsMp3; Print StartingTranscription]
  ++ transcribe_events (gs_uri b n) "mp3" operation polls text
  ++ save_events b n text.

Definition m4a_events (event : Event) (b n : string)
    (operation : Operation) (polls : nat) (text : string) : list effect :=
  intake_events event b n
  ++ [Print ConvertingM4a;
      Run (ffmpeg_argv (local_path n) (local_path (converted_name n)));
      Remove (local_path n);
      Print (UploadingConverted (local_path (converted_name n)));
      UploadFromFilename b (converted_name n) (local_path (converted_name n));
      Remove (local_path (converted_name n));
      Print StartingTranscription]
  ++ transcribe_events (gs_uri b (converted_name n)) "wav" operation polls text
  ++ save_events b n text.

(** ** The transcript as the specification words it *)

(** Following the specification's words: the pieces in their order, with
    one line feed (character 10) between two neighbours and none at
    either end.  It is written without the helpers of the model, to be
    compared with what [transcribe_audio] returns. *)
Fixpoint newline_separated (pieces : list string) : string :=
  match pieces with
  | [] => EmptyString
  | piece :: rest =>
      match rest with
      | [] => piece
      | _ :: _ => piece +:+ String "010"%char (newline_separated rest)
      end
  end.

(** ** A concrete environment, for examples *)

Definition demo_response : Response :=
  {| results :=
       [ {| alternatives := [ {| transcript := "Guten Tag." |}; {| transcript := "guten Tag" |} ] |};
         {| alternatives := [ {| transcript := "Wie geht es?" |} ] |} ] |}.

Definition demo_operation : Operation :=
  {| op_done := fun i => (2 <=? i)%nat;
     op_metadata := fun i => match i with
                             | O => None
                             | _ => Some {| progress_percent := Some 50%Z |}
                             end;
     op_result := fun _ => inr demo_response |}.

(** All services succeed; the transcoder writes its last argument. *)
Definition demo_env : Env :=
  {| download_fault := fun _ _ => None;
     download_leaves := fun _ _ => Some "";
     upload_fault := fun _ _ => None;
     run_process := fun argv fs => ProcExit 0 (<[List.last argv "" := "RIFF"]> fs);
     recognize := fun _ _ => inr demo_operation |}.

Definition demo_world (name : string) : World :=
  {| objects := {[ ("b1", name) := "bytes" ]}; files := ∅; trace := [] |}.

Definition demo_event (name : string) : Event :=
  <["bucket" := "b1"]> (<["name" := name]> ∅).

(** An operation that never completes. *)
Definition stuck_operation : Operation :=
  {| op_done := fun _ => false;
     op_metadata := fun _ => None;
     op_result := fun _ => inl TimeoutError |}.

(** An operation that is done at once but whose result fetch times out. *)
Definition late_operation : Operation :=
  {| op_done := fun _ => true;
     op_metadata := fun _ => None;
     op_result := fun _ => inl TimeoutError |}.

(** ** Runs in general: what a computation may do to the world *)

(** [triple R Q m]: whenever [m] ends, by a return or by an exception, the
    world it leaves is related by [R] to the world it started in, and a
    returned value satisfies [Q]. *)
Definition triple (R : World -> World -> Prop) {A} (Q : A -> Prop) (m : M A) : Prop :=
  forall w,
    match m w with
    | Returned a w' => R w w' /\ Q a
    | Raised _ w' => R w w'
    | OutOfFuel => True
    end.

(** Container and local files are as they were. *)
Definition same_storage (w w' : World) : Prop :=
  objects w' = objects w /\ files w' = files w.

(** The locations [process_audio] hands to [transcribe_audio] for the
    object [n] of the container [b]. *)
Definition source_uri (b n uri : string) : Prop :=
  uri = gs_uri b n \/ uri = gs_uri b (converted_name n).

(** The effects an invocation for the object [n] of the container [b] can
    have: it reads [n] only, writes the two derived keys only, removes its
    own two temporaries only, and runs the transcoder on them only. *)
Definition allowed (b n : string) (e : effect) : Prop :=
  match e with
  | Print _ | LoggingBasicConfig | Done _ => True
  | Download bucket key path => bucket = b /\ key = n /\ path = local_path n
  | Run argv => argv = ffmpeg_argv (local_path n) (local_path (converted_name n))
  | Remove path => path = local_path n \/ path = local_path (converted_name n)
  | UploadFromFilename bucket key path =>
      bucket = b /\ key = converted_name n /\ path = local_path (converted_name n)
  | UploadFromString bucket key _ content_type =>
      bucket = b /\ key = transcript_name n /\ content_type = "text/plain"
  | LongRunningRecognize config uri =>
      sample_rate_hertz config = 16000%Z /\ language_code config = "de-DE"
      /\ enable_automatic_punctuation config = true /\ source_uri b n uri
  | Sleep seconds => seconds = 5%Z
  | FetchResult timeout => timeout = 1000%Z
  end.

(** [w'] comes from [w] by allowed effects, and the container differs
    from before at the two derived keys at most. *)
Definition within (b n : string) (w w' : World) : Prop :=
  (exists t, trace w' = trace w ++ t /\ Forall (allowed b n) t)
  /\ (forall k, k <> (b, converted_name n) -> k <> (b, transcript_name n) ->
        objects w' !! k = objects w !! k).

(** The storage service answers every download with an error; the
    partial file is removed. *)
Definition unavailable_storage_env : Env :=
  {| download_fault := fun _ _ => Some (GoogleAPIError "503");
     download_leaves := fun _ _ => None;
     upload_fault := fun _ _ => None;
     run_process := fun argv fs => ProcExit 0 (<[List.last argv "" := "RIFF"]> fs);
     recognize := fun _ _ => inr demo_operation |}.

(** A transcoder that exits with code 1 and writes nothing. *)
Definition failing_transcoder_env : Env :=
  {| download_fault := fun _ _ => None;
     download_leaves := fun _ _ => Some "";
     upload_fault := fun _ _ => None;
     run_process := fun _ fs => ProcExit 1 fs;
     recognize := fun _ _ => inr demo_operation |}.

(** No transcoder is installed: the process cannot be started. *)
Definition missing_transcoder_env : Env :=
  {| download_fault := fun _ _ => None;
     download_leaves := fun _ _ => Some "";
     upload_fault := fun _ _ => None;
     run_process := fun _ _ => ProcFault (OSError "ffmpeg");
     recognize := fun _ _ => inr demo_operation |}.

(** The speech service refuses every request. *)
Definition refusing_speech_env : Env :=
  {| download_fault := fun _ _ => None;
     download_leaves := fun _ _ => Some "";
     upload_fault := fun _ _ => None;
     run_process := fun argv fs => ProcExit 0 (<[List.last argv "" := "RIFF"]> fs);
     recognize := fun _ _ => inl (GoogleAPIError "unavailable") |}.

(** Every upload fails. *)
Definition read_only_env : Env :=
  {| download_fault := fun _ _ => None;
     download_leaves := fun _ _ => Some "";
     upload_fault := fun _ _ => Some (GoogleAPIError "forbidden");
     run_process := fun argv fs => ProcExit 0 (<[List.last argv "" := "RIFF"]> fs);
     recognize := fun _ _ => inr demo_operation |}.

(** An operation that is done at once; its response has a result with no
    alternative. *)
Definition hollow_operation : Operation :=
  {| op_done := fun _ => true;
     op_metadata := fun _ => None;
     op_result := fun _ =>
       inr {| results := [ {| alternatives := [ {| transcript := "Hallo" |} ] |};
                           {| alternatives := [] |} ] |} |}.

(** An operation that is done at once; its response has no result. *)
Definition silent_operation : Operation :=
  {| op_done := fun _ => true;
     op_metadata := fun _ => None;
     op_result := fun _ => inr {| results := [] |} |}.

Definition silent_env : Env :=
  {| download_fault := fun _ _ => None;
     download_leaves := fun _ _ => Some "";
     upload_fault := fun _ _ => None;
     run_process := fun argv fs => ProcExit 0 (<[List.last argv "" := "RIFF"]> fs);
     recognize := fun _ _ => inr silent_operation |}.

(** ** The effects of the runs that fail *)

(** [transcribe_audio] up to and including the submission (lines 105-122). *)
Definition submission_events (gcs_uri file_extension language_code : string) : list effect :=
  [LoggingBasicConfig;
   Print (StartingTranscriptionFor gcs_uri);
   Print (TranscribingAudioFile gcs_uri);
   Print (UsingEncoding (encoding (config_for file_extension language_code)));
   Print (TranscriptionConfig (config_for file_extension language_code));
   Print (TranscriptionAudio gcs_uri);
   LongRunningRecognize (config_for file_extension language_code) gcs_uri].

(** The [m4a] branch up to and including the upload of the converted
    object (lines 54-72). *)
Definition conversion_events (b n : string) : list effect :=
  [Print ConvertingM4a;
   Run (ffmpeg_argv (local_path n) (local_path (converted_name n)));
   Remove (local_path n);
   Print (UploadingConverted (local_path (converted_name n)));
   UploadFromFilename b (converted_name n) (local_path (converted_name n))].

(** The speech service answers with [hollow_operation]. *)
Definition hollow_env : Env :=
  {| download_fault := fun _ _ => None;
     download_leaves := fun _ _ => Some "";
     upload_fault := fun _ _ => None;
     run_process := fun argv fs => ProcExit 0 (<[List.last argv "" := "RIFF"]> fs);
     recognize := fun _ _ => inr hollow_operation |}.

(** * Properties *)

(** ** Strings *)

Example split_call : PyStr.split "." "dir.v2/call.M4A" = ["dir"; "v2/call"; "M4A"].
Proof. reflexivity. Qed.

Example split_nodot : PyStr.split "." "README" = ["README"].
Proof. reflexivity. Qed.

Example extension_upper : file_extension_of "call.M4A" = "m4a".
Proof. reflexivity. Qed.

Example contains_marker : PyStr.contains "_converted" "call.m4a_converted.wav" = true.
Proof. reflexivity. Qed.

Example contains_no_marker : PyStr.contains "_converted" "call_convert.wav" = false.
Proof. reflexivity. Qed.

Lemma split_not_nil sep s : PyStr.split sep s <> [].
Proof.
  destruct s as [|c s]; simpl; [discriminate|].
  destruct (Ascii.eqb c sep); [discriminate|].
  destruct (PyStr.split sep s); discriminate.
Qed.

Lemma last_item_cons piece pieces :
  pieces <> [] -> PyStr.last_item (piece :: pieces) = PyStr.last_item pieces.
Proof. unfold PyStr.last_item. destruct pieces; [congruence | reflexivity]. Qed.

(** A string with a separator in it splits into two pieces at least. *)
Lemma split_app_two sep s ext :
  exists p q qs, PyStr.split sep (s +:+ String sep ext) = p :: q :: qs.
Proof.
  induction s as [|c s (p & q & qs & IH)]; simpl.
  - rewrite Ascii.eqb_refl.
    destruct (PyStr.split sep ext) as [|q qs] eqn:E.
    + exfalso. exact (split_not_nil _ _ E).
    + eauto.
  - rewrite IH. destruct (Ascii.eqb c sep); eauto.
Qed.

(** The last piece of [s ++ "." ++ ext] is the last piece of [ext]: what
    precedes the last dot does not matter. *)
Lemma last_item_split_app sep s ext :
  PyStr.last_item (PyStr.split sep (s +:+ String sep ext))
  = PyStr.last_item (PyStr.split sep ext).
Proof.
  induction s as [|c s IH]; simpl.
  - rewrite Ascii.eqb_refl. apply last_item_cons, split_not_nil.
  - destruct (split_app_two sep s ext) as (p & q & qs & E).
    rewrite E in *.
    destruct (Ascii.eqb c sep).
    + rewrite last_item_cons by discriminate. exact IH.
    + rewrite <- IH. reflexivity.
Qed.

Lemma length_append (s t : string) :
  String.length (s +:+ t) = (String.length s + String.length t)%nat.
Proof. induction s as [|c s IH]; simpl; [reflexivity | by rewrite IH]. Qed.

(** The converted temporary is another file than the downloaded original. *)
Lemma converted_path_fresh (file_name : string) :
  local_path file_name <> local_path (converted_name file_name).
Proof.
  unfold local_path, converted_name. intros Heq.
  apply (f_equal String.length) in Heq.
  rewrite !length_append in Heq. simpl in Heq. lia.
Qed.

Lemma file_extension_txt (file_name : string) :
  file_extension_of (file_name +:+ ".txt") = "txt".
Proof.
  unfold file_extension_of.
  change ".txt" with (String "." "txt").
  rewrite last_item_split_app. reflexivity.
Qed.

(** ** Worlds and the steps of a computation *)

Lemma after_after w t u : after (after w t) u = after w (t ++ u).
Proof. unfold after; simpl. by rewrite <- app_assoc. Qed.

Lemma after_nil w : after w [] = w.
Proof. destruct w; unfold after; simpl. by rewrite app_nil_r. Qed.

Lemma emit_run e w : emit e w = Returned tt (after w [e]).
Proof. reflexivity. Qed.

Lemma print_run line w : print line w = Returned tt (after w [Print line]).
Proof. reflexivity. Qed.

Lemma bind_returned {A B} (m : M A) (k : A -> M B) w a w' :
  m w = Returned a w' -> bind m k w = k a w'.
Proof. unfold bind. by intros ->. Qed.

Lemma bind_raised {A B} (m : M A) (k : A -> M B) w e w' :
  m w = Raised e w' -> bind m k w = Raised e w'.
Proof. unfold bind. by intros ->. Qed.

Lemma bind_out_of_fuel {A B} (m : M A) (k : A -> M B) w :
  m w = OutOfFuel -> bind m k w = OutOfFuel.
Proof. unfold bind. by intros ->. Qed.

(** ** The polling loop *)

Lemma poll_body_run operation i w :
  poll_body operation i w
  = Returned tt (after w [Print (progress_line operation i); Sleep 5]).
Proof.
  unfold poll_body, progress_line.
  destruct (op_metadata operation i) as [[[percent|]]|];
    unfold bind, time_sleep; rewrite print_run, emit_run, after_after; reflexivity.
Qed.

Lemma poll_loop_step fuel operation i w :
  poll_loop (S fuel) operation i w
  = if op_done operation i then Returned tt (after w [Done i])
    else poll_loop fuel operation (S i)
           (after w [Done i; Print (progress_line operation i); Sleep 5]).
Proof.
  simpl. unfold bind at 1, operation_done. unfold bind at 1. rewrite emit_run.
  unfold ret at 1. destruct (op_done operation i); [reflexivity|].
  unfold bind. rewrite poll_body_run, after_after. reflexivity.
Qed.

(** An operation first done at poll [i + n] ends the loop after [n]
    rounds, whatever fuel above [n] the model is given. *)
Lemma poll_loop_run operation n : forall fuel i w,
  first_done_from operation i n -> (n < fuel)%nat ->
  poll_loop fuel operation i w = Returned tt (after w (poll_events operation i n)).
Proof.
  induction n as [|n IH]; intros fuel i w [Hpending Hdone] Hfuel;
    (destruct fuel as [|fuel]; [lia|]); rewrite poll_loop_step.
  - rewrite Nat.add_0_r in Hdone. by rewrite Hdone.
  - assert (op_done operation i = false) as ->.
    { rewrite <- (Nat.add_0_r i). apply Hpending. lia. }
    rewrite IH with (fuel := fuel); [by rewrite after_after | | lia].
    split.
    + intros j Hj. replace (S i + j)%nat with (i + S j)%nat by lia. apply Hpending. lia.
    + by replace (S i + n)%nat with (i + S n)%nat by lia.
Qed.

(** While the operation keeps answering "not done", the loop keeps going. *)
Lemma poll_loop_pending operation : forall fuel i w,
  (forall j, (j < fuel)%nat -> op_done operation (i + j) = false) ->
  poll_loop fuel operation i w = OutOfFuel.
Proof.
  induction fuel as [|fuel IH]; intros i w Hpending; [reflexivity|].
  rewrite poll_loop_step.
  assert (op_done operation i = false) as ->.
  { rewrite <- (Nat.add_0_r i). apply Hpending. lia. }
  apply IH. intros j Hj. replace (S i + j)%nat with (i + S j)%nat by lia.
  apply Hpending. lia.
Qed.

(** The loop never raises: it is still running, or it has ended at the
    first poll that reported completion. *)
Lemma poll_loop_cases operation : forall fuel i w,
  poll_loop fuel operation i w = OutOfFuel
  \/ exists n, (n < fuel)%nat /\ first_done_from operation i n
               /\ poll_loop fuel operation i w
                  = Returned tt (after w (poll_events operation i n)).
Proof.
  induction fuel as [|fuel IH]; intros i w; [by left|].
  rewrite poll_loop_step.
  destruct (op_done operation i) eqn:Hdone.
  - right. exists 0%nat. repeat split; [lia | intros j; lia | by rewrite Nat.add_0_r].
  - destruct (IH (S i) (after w [Done i; Print (progress_line operation i); Sleep 5]))
      as [Hout | (n & Hn & [Hpending Hd] & Hrun)]; [by left|].
    right. exists (S n). repeat split; [lia | | |].
    + intros j Hj. destruct j as [|j]; [by rewrite Nat.add_0_r|].
      replace (i + S j)%nat with (S i + j)%nat by lia. apply Hpending. lia.
    + by replace (i + S n)%nat with (S i + n)%nat by lia.
    + by rewrite Hrun, after_after.
Qed.

Lemma sleeps_poll_events operation n : forall i,
  sleeps (poll_events operation i n) = repeat (Sleep 5) n.
Proof. induction n as [|n IH]; intros i; simpl; [reflexivity|]. by rewrite IH. Qed.

Lemma service_calls_poll_events operation n : forall i,
  service_calls (poll_events operation i n) = [].
Proof. induction n as [|n IH]; intros i; simpl; [reflexivity|]. apply IH. Qed.

Lemma uploads_poll_events operation n : forall i,
  uploads (poll_events operation i n) = [].
Proof. induction n as [|n IH]; intros i; simpl; [reflexivity|]. apply IH. Qed.

(** ** transcribe_audio *)

(** Unfolds the operations of the model down to worlds and matches. *)
Ltac exec :=
  cbv beta iota zeta delta
    [bind ret raise emit print try_except get_world set_files set_objects getitem
     download_to_filename download_failed upload_from_filename upload_from_string
     subprocess_run_check os_path_exists os_remove long_running_recognize
     operation_done time_sleep operation_result after fst snd];
  cbn [objects files trace].

(** Closes a goal that equates two outcomes whose traces differ by the
    bracketing of appends only. *)
Ltac same_world :=
  unfold after; cbn [objects files trace];
  rewrite <- ?app_assoc; cbn [app]; rewrite <- ?app_assoc; reflexivity.

Lemma top_transcripts_run rs pieces w :
  top_alternatives rs pieces -> top_transcripts rs w = Returned pieces w.
Proof.
  induction 1 as [|r t rs pieces Hhead _ IH]; simpl; [reflexivity|].
  destruct (alternatives r) as [|alternative rest]; [discriminate|].
  simpl in Hhead. injection Hhead as <-.
  unfold bind. by rewrite IH.
Qed.

(** The comprehension returns the top alternatives, or it raises
    [IndexError] at a result that has no alternative. *)
Lemma top_transcripts_cases rs w :
  (exists pieces, top_alternatives rs pieces /\ top_transcripts rs w = Returned pieces w)
  \/ (Exists (fun r => alternatives r = []) rs /\ top_transcripts rs w = Raised IndexError w).
Proof.
  induction rs as [|r rs IH]; simpl.
  - left. exists []. split; [constructor | reflexivity].
  - destruct (alternatives r) as [|alternative rest] eqn:E.
    + right. split; [by constructor | reflexivity].
    + unfold bind.
      destruct IH as [(pieces & Htop & ->) | (Hempty & ->)].
      * left. exists (transcript alternative :: pieces). split; [|reflexivity].
        constructor; [by rewrite E | exact Htop].
      * right. split; [by constructor 2 | reflexivity].
Qed.

(** A run of [transcribe_audio] in which every step succeeds. *)
Lemma transcribe_audio_run fuel env gcs_uri file_extension language_code w
    operation n response pieces :
  recognize env (config_for file_extension language_code) gcs_uri = inr operation ->
  first_done operation n -> (n < fuel)%nat ->
  op_result operation 1000 = inr response ->
  top_alternatives (results response) pieces ->
  transcribe_audio fuel env gcs_uri file_extension language_code w
  = Returned (PyStr.join PyStr.newline pieces)
      (after w (transcribe_prefix gcs_uri file_extension language_code operation n
                ++ [Print OperationCompleted;
                    Print (TranscriptionPreview
                             (PyStr.take 100 (PyStr.join PyStr.newline pieces)))])).
Proof.
  intros Hrec Hdone Hfuel Hres Htop.
  unfold transcribe_audio, transcribe_prefix. fold (config_for file_extension language_code).
  exec. rewrite Hrec.
  rewrite poll_loop_run with (n := n) by assumption.
  exec. rewrite Hres.
  rewrite top_transcripts_run with (pieces := pieces) by assumption.
  unfold config_for. same_world.
Qed.

(** The result fetch uses the 1000 second timeout; when it raises, the
    exception is logged and raised again. *)
Lemma transcribe_audio_fetch_raises fuel env gcs_uri file_extension language_code w
    operation n e :
  recognize env (config_for file_extension language_code) gcs_uri = inr operation ->
  first_done operation n -> (n < fuel)%nat ->
  op_result operation 1000 = inl e ->
  transcribe_audio fuel env gcs_uri file_extension language_code w
  = Raised e
      (after w (transcribe_prefix gcs_uri file_extension language_code operation n
                ++ [Print (ErrorDuringTranscription e)])).
Proof.
  intros Hrec Hdone Hfuel Hres.
  unfold transcribe_audio, transcribe_prefix. fold (config_for file_extension language_code).
  exec. rewrite Hrec.
  rewrite poll_loop_run with (n := n) by assumption.
  exec. rewrite Hres.
  unfold config_for. same_world.
Qed.

(** While the operation is not done, [transcribe_audio] is in its loop. *)
Lemma transcribe_audio_pending fuel env gcs_uri file_extension language_code w operation :
  recognize env (config_for file_extension language_code) gcs_uri = inr operation ->
  (forall j, (j < fuel)%nat -> op_done operation j = false) ->
  transcribe_audio fuel env gcs_uri file_extension language_code w = OutOfFuel.
Proof.
  intros Hrec Hpending.
  unfold transcribe_audio. fold (config_for file_extension language_code).
  exec. rewrite Hrec.
  by rewrite poll_loop_pending.
Qed.

(** Whatever text [transcribe_audio] returns is the newline-joined list of
    top alternatives of the response it fetched. *)
Lemma transcribe_audio_returned fuel env gcs_uri file_extension language_code w text w' :
  transcribe_audio fuel env gcs_uri file_extension language_code w = Returned text w' ->
  exists operation n response pieces,
    recognize env (config_for file_extension language_code) gcs_uri = inr operation
    /\ first_done operation n /\ (n < fuel)%nat
    /\ op_result operation 1000 = inr response
    /\ top_alternatives (results response) pieces
    /\ text = PyStr.join PyStr.newline pieces.
Proof.
  unfold transcribe_audio. fold (config_for file_extension language_code).
  exec.
  destruct (recognize env (config_for file_extension language_code) gcs_uri)
    as [e|operation] eqn:Hrec; [discriminate|].
  match goal with |- context [poll_loop fuel operation 0 ?W] =>
    destruct (poll_loop_cases operation fuel 0 W) as [-> | (n & Hn & Hdone & ->)]
  end; [discriminate|].
  exec.
  destruct (op_result operation 1000) as [e|response] eqn:Hres; [discriminate|].
  match goal with |- context [top_transcripts (results response) ?W] =>
    destruct (top_transcripts_cases (results response) W)
      as [(pieces & Htop & ->) | (_ & ->)]
  end; [|discriminate].
  intros H. injection H as <- _.
  exists operation, n, response, pieces.
  repeat split; try assumption; try reflexivity; apply Hdone.
Qed.

(** ** process_audio: the runs in which every step succeeds *)

Lemma is_empty_false s : s <> "" -> PyStr.is_empty s = false.
Proof. by destruct s. Qed.

(** Decides the comparisons of string literals left in the goal. *)
Ltac eval_eqb :=
  repeat match goal with
    | |- context [String.eqb ?a ?b] =>
        let v := eval vm_compute in (String.eqb a b) in
        match v with
        | true => change (String.eqb a b) with true
        | false => change (String.eqb a b) with false
        end
    end;
  cbn [orb andb].

(** Runs the validation of lines 15-20 on an event that names [b] and [n]. *)
Ltac enter Hnames :=
  destruct Hnames as (?Hb & ?Hn & ?Hbne & ?Hnne);
  unfold process_audio, process_audio_body; exec;
  rewrite Hb, Hn; exec;
  rewrite (is_empty_false _ Hbne), (is_empty_false _ Hnne); cbn [orb]; exec.

Ltac unfold_events :=
  unfold wav_events, mp3_events, m4a_events, intake_events, transcribe_events,
    save_events, gs_uri, transcript_name, converted_name, local_path.

Lemma wav_run fuel env event w b n data operation polls response pieces :
  names event b n ->
  file_extension_of n = "wav" -> PyStr.contains "_converted" n = false ->
  download_fault env b n = None -> objects w !! (b, n) = Some data ->
  recognize env (config_for "wav" "de-DE") (gs_uri b n) = inr operation ->
  first_done operation polls -> (polls < fuel)%nat ->
  op_result operation 1000 = inr response ->
  top_alternatives (results response) pieces ->
  upload_fault env b (transcript_name n) = None ->
  process_audio fuel env event w
  = Returned tt
      {| objects := <[(b, transcript_name n) := PyStr.join PyStr.newline pieces]> (objects w);
         files := <[local_path n := data]> (files w);
         trace := trace w
                  ++ wav_events event b n operation polls (PyStr.join PyStr.newline pieces) |}.
Proof.
  intros Hnames Hext Hmark Hdl Hobj Hrec Hdone Hfuel Hres Htop Hup.
  enter Hnames. rewrite Hext, Hmark. eval_eqb. exec.
  rewrite Hdl, Hobj. exec. eval_eqb. exec.
  erewrite transcribe_audio_run; [| exact Hrec | exact Hdone | exact Hfuel | exact Hres | exact Htop].
  exec. unfold transcript_name in Hup. rewrite Hup. exec.
  unfold_events. same_world.
Qed.

Lemma mp3_run fuel env event w b n data operation polls response pieces :
  names event b n ->
  file_extension_of n = "mp3" ->
  download_fault env b n = None -> objects w !! (b, n) = Some data ->
  recognize env (config_for "mp3" "de-DE") (gs_uri b n) = inr operation ->
  first_done operation polls -> (polls < fuel)%nat ->
  op_result operation 1000 = inr response ->
  top_alternatives (results response) pieces ->
  upload_fault env b (transcript_name n) = None ->
  process_audio fuel env event w
  = Returned tt
      {| objects := <[(b, transcript_name n) := PyStr.join PyStr.newline pieces]> (objects w);
         files := <[local_path n := data]> (files w);
         trace := trace w
                  ++ mp3_events event b n operation polls (PyStr.join PyStr.newline pieces) |}.
Proof.
  intros Hnames Hext Hdl Hobj Hrec Hdone Hfuel Hres Htop Hup.
  enter Hnames. rewrite Hext. eval_eqb. exec.
  rewrite Hdl, Hobj. exec. eval_eqb. exec.
  erewrite transcribe_audio_run; [| exact Hrec | exact Hdone | exact Hfuel | exact Hres | exact Htop].
  exec. unfold transcript_name in Hup. rewrite Hup. exec.
  unfold_events. same_world.
Qed.

Lemma m4a_run fuel env event w b n data files_after original wav
    operation polls response pieces :
  names event b n ->
  file_extension_of n = "m4a" ->
  download_fault env b n = None -> objects w !! (b, n) = Some data ->
  run_process env (ffmpeg_argv (local_path n) (local_path (converted_name n)))
    (<[local_path n := data]> (files w)) = ProcExit 0 files_after ->
  files_after !! local_path n = Some original ->
  files_after !! local_path (converted_name n) = Some wav ->
  upload_fault env b (converted_name n) = None ->
  recognize env (config_for "wav" "de-DE") (gs_uri b (converted_name n)) = inr operation ->
  first_done operation polls -> (polls < fuel)%nat ->
  op_result operation 1000 = inr response ->
  top_alternatives (results response) pieces ->
  upload_fault env b (transcript_name n) = None ->
  process_audio fuel env event w
  = Returned tt
      {| objects := <[(b, transcript_name n) := PyStr.join PyStr.newline pieces]>
                      (<[(b, converted_name n) := wav]> (objects w));
         files := delete (local_path (converted_name n)) (delete (local_path n) files_after);
         trace := trace w
                  ++ m4a_events event b n operation polls (PyStr.join PyStr.newline pieces) |}.
Proof.
  intros Hnames Hext Hdl Hobj Hrun Horig Hwav Hupc Hrec Hdone Hfuel Hres Htop Hup.
  enter Hnames. rewrite Hext. eval_eqb. exec.
  rewrite Hdl, Hobj. exec. eval_eqb. exec.
  unfold convert_m4a. exec.
  pose proof (converted_path_fresh n) as Hfresh.
  unfold local_path, converted_name in *.
  rewrite Hrun. exec. change (0 =? 0)%Z with true. exec.
  rewrite Horig. exec. rewrite Horig. exec.
  rewrite lookup_delete_ne, Hwav by exact Hfresh.
  exec. unfold converted_name in Hupc. rewrite Hupc. exec.
  rewrite lookup_delete_ne, Hwav by exact Hfresh.
  exec. rewrite lookup_delete_ne, Hwav by exact Hfresh.
  exec.
  erewrite transcribe_audio_run; [| exact Hrec | exact Hdone | exact Hfuel | exact Hres | exact Htop].
  exec. unfold transcript_name in Hup. rewrite Hup. exec.
  unfold_events. same_world.
Qed.

(** ** process_audio: the runs that end in the handler of line 98 *)

(** A key whose extension is none of [wav], [m4a], [mp3]: the object is
    downloaded first (line 37), and the format is rejected after that
    (line 86). *)
Lemma unsupported_run fuel env event w b n :
  names event b n ->
  file_extension_of n <> "wav" -> file_extension_of n <> "m4a" ->
  file_extension_of n <> "mp3" ->
  process_audio fuel env event w
  = match download_fault env b n with
    | Some e =>
        Returned tt
          {| objects := objects w;
             files := files_after_failed_download env b n (local_path n) (files w);
             trace := trace w
                      ++ intake_events event b n ++ [Print (ErrorProcessingFile e)] |}
    | None =>
        match objects w !! (b, n) with
        | None =>
            Returned tt
              {| objects := objects w;
                 files := files_after_failed_download env b n (local_path n) (files w);
                 trace := trace w
                          ++ intake_events event b n
                          ++ [Print (ErrorProcessingFile (NotFound b n))] |}
        | Some data =>
            Returned tt
              {| objects := objects w;
                 files := <[local_path n := data]> (files w);
                 trace := trace w
                          ++ intake_events event b n
                          ++ [Print (ErrorProcessingFile
                                       (UnsupportedFormat (file_extension_of n)))] |}
        end
    end.
Proof.
  intros Hnames Hwav Hm4a Hmp3.
  apply String.eqb_neq in Hwav, Hm4a, Hmp3.
  enter Hnames. rewrite Hwav, Hm4a, Hmp3. cbn [andb]. exec.
  destruct (download_fault env b n) as [e|]; exec.
  - unfold_events. same_world.
  - destruct (objects w !! (b, n)) as [data|]; exec.
    + rewrite ?Hwav, ?Hm4a, ?Hmp3. exec. unfold UnsupportedFormat. unfold_events. same_world.
    + unfold_events. same_world.
Qed.

Lemma uploads_app t u : uploads (t ++ u) = uploads t ++ uploads u.
Proof. apply List.filter_app. Qed.

Lemma service_calls_app t u : service_calls (t ++ u) = service_calls t ++ service_calls u.
Proof. apply List.filter_app. Qed.

Lemma service_calls_transcribe_events gcs_uri file_extension operation polls text :
  service_calls (transcribe_events gcs_uri file_extension operation polls text)
  = [LongRunningRecognize (config_for file_extension "de-DE") gcs_uri].
Proof.
  unfold transcribe_events, transcribe_prefix.
  rewrite !service_calls_app, service_calls_poll_events. reflexivity.
Qed.

Lemma uploads_transcribe_events gcs_uri file_extension operation polls text :
  uploads (transcribe_events gcs_uri file_extension operation polls text) = [].
Proof.
  unfold transcribe_events, transcribe_prefix.
  rewrite !uploads_app, uploads_poll_events. reflexivity.
Qed.

(** ** Where a run can still be going *)

Lemma poll_loop_out_of_fuel operation : forall fuel i w,
  poll_loop fuel operation i w = OutOfFuel ->
  forall j, (j < fuel)%nat -> op_done operation (i + j) = false.
Proof.
  induction fuel as [|fuel IH]; intros i w Hout j Hj; [lia|].
  rewrite poll_loop_step in Hout.
  destruct (op_done operation i) eqn:Hdone; [discriminate|].
  destruct j as [|j]; [by rewrite Nat.add_0_r|].
  replace (i + S j)%nat with (S i + j)%nat by lia.
  apply (IH _ _ Hout). lia.
Qed.

(** An operation that reports completion at some poll has a first such poll. *)
Lemma first_done_exists operation n :
  op_done operation n = true -> exists m, (m <= n)%nat /\ first_done operation m.
Proof.
  intros Hdone.
  destruct (poll_loop_cases operation (S n) 0 {| objects := ∅; files := ∅; trace := [] |})
    as [Hout | (m & Hm & Hfirst & _)].
  - pose proof (poll_loop_out_of_fuel _ _ _ _ Hout n) as Hn.
    simpl in Hn. rewrite Hn in Hdone by lia. discriminate.
  - exists m. split; [lia | exact Hfirst].
Qed.

(** [transcribe_audio] can only be unfinished inside its polling loop. *)
Lemma transcribe_audio_out_of_fuel fuel env gcs_uri file_extension language_code w :
  transcribe_audio fuel env gcs_uri file_extension language_code w = OutOfFuel ->
  exists operation,
    recognize env (config_for file_extension language_code) gcs_uri = inr operation
    /\ forall j, (j < fuel)%nat -> op_done operation j = false.
Proof.
  unfold transcribe_audio. fold (config_for file_extension language_code).
  exec.
  destruct (recognize env (config_for file_extension language_code) gcs_uri)
    as [e|operation] eqn:Hrec; [discriminate|].
  match goal with |- context [poll_loop fuel operation 0 ?W] =>
    destruct (poll_loop fuel operation 0 W) as [[] w1| |] eqn:Hloop
  end.
  - exec. destruct (op_result operation 1000) as [e|response]; [discriminate|].
    match goal with |- context [top_transcripts (results response) ?W] =>
      destruct (top_transcripts_cases (results response) W)
        as [(pieces & _ & ->) | (_ & ->)]
    end; discriminate.
  - discriminate.
  - intros _. exists operation. split; [reflexivity|].
    intros j Hj. exact (poll_loop_out_of_fuel _ _ _ _ Hloop j Hj).
Qed.

(** Unfinished computations are unfinished in the polling loop only; the
    rules follow the structure of a computation. *)
Section Steady.

Variables (fuel : nat) (env : Env).

Lemma steady_ret {A} (a : A) : steady fuel env (ret a).
Proof. intros w. discriminate. Qed.

Lemma steady_raise {A} (e : exn) : steady fuel env (@raise A e).
Proof. intros w. discriminate. Qed.

Lemma steady_emit e : steady fuel env (emit e).
Proof. intros w. discriminate. Qed.

Lemma steady_get_world : steady fuel env get_world.
Proof. intros w. discriminate. Qed.

Lemma steady_set_files fs : steady fuel env (set_files fs).
Proof. intros w. discriminate. Qed.

Lemma steady_set_objects os : steady fuel env (set_objects os).
Proof. intros w. discriminate. Qed.

Lemma steady_bind {A B} (m : M A) (k : A -> M B) :
  steady fuel env m -> (forall a, steady fuel env (k a)) -> steady fuel env (bind m k).
Proof.
  intros Hm Hk w. unfold bind.
  destruct (m w) as [a w'| |] eqn:E; [apply Hk | discriminate | intros _; exact (Hm w E)].
Qed.

Lemma steady_try_except {A} (m : M A) (handler : exn -> M A) :
  steady fuel env m -> (forall e, steady fuel env (handler e)) ->
  steady fuel env (try_except m handler).
Proof.
  intros Hm Hh w. unfold try_except.
  destruct (m w) as [a w'|e w'|] eqn:E; [discriminate | apply Hh | intros _; exact (Hm w E)].
Qed.

Lemma steady_transcribe_audio gcs_uri file_extension language_code :
  steady fuel env (transcribe_audio fuel env gcs_uri file_extension language_code).
Proof.
  intros w Hout.
  destruct (transcribe_audio_out_of_fuel _ _ _ _ _ _ Hout) as (operation & Hrec & Hpending).
  exists (config_for file_extension language_code), gcs_uri, operation. auto.
Qed.

(** Applies the rules above along the structure of a computation. *)
Ltac prove_steady :=
  repeat first
    [ apply steady_ret | apply steady_raise | apply steady_emit
    | apply steady_get_world | apply steady_set_files | apply steady_set_objects
    | apply steady_transcribe_audio
    | apply steady_bind; [| intros ?]
    | apply steady_try_except; [| intros ?]
    | progress unfold print, getitem, download_to_filename, download_failed,
        upload_from_filename, upload_from_string, subprocess_run_check,
        os_path_exists, os_remove
    | match goal with |- steady _ _ (match ?x with _ => _ end) => destruct x end ].

Lemma steady_convert_m4a bucket_name file_name local_file :
  steady fuel env (convert_m4a env bucket_name file_name local_file).
Proof. unfold convert_m4a. prove_steady. Qed.

Lemma steady_process_audio_body event : steady fuel env (process_audio_body fuel env event).
Proof.
  unfold process_audio_body. prove_steady.
  all: try apply steady_convert_m4a.
Qed.

End Steady.

(** The [except] clause of line 98 turns every exception of the body into
    a printed line and a normal return. *)
Lemma process_audio_catches fuel env event w :
  process_audio fuel env event w
  = match process_audio_body fuel env event w with
    | Raised e w' => Returned tt (after w' [Print (ErrorProcessingFile e)])
    | o => o
    end.
Proof. reflexivity. Qed.

(** * The claims *)

(** ** C1: an [m4a] source *)

(** C1, as stated, at [{bucket: b1, name: call.m4a}] with every service
    succeeding: the claim has both local temporaries deleted after the
    upload of the converted object, but the downloaded original
    [/tmp/call.m4a] is removed (line 66) before that upload (line 72);
    only the converted temporary is removed after it. *)
Lemma m4a_original_removed_before_upload :
  exists w',
    process_audio 3 demo_env (demo_event "call.m4a") (demo_world "call.m4a")
    = Returned tt w'
    /\ service_calls (trace w')
       = [Download "b1" "call.m4a" "/tmp/call.m4a";
          Run ["ffmpeg"; "-y"; "-i"; "/tmp/call.m4a"; "-acodec"; "pcm_s16le";
               "-ar"; "16000"; "/tmp/call.m4a_converted.wav"];
          Remove "/tmp/call.m4a";
          UploadFromFilename "b1" "call.m4a_converted.wav" "/tmp/call.m4a_converted.wav";
          Remove "/tmp/call.m4a_converted.wav";
          LongRunningRecognize (config_for "wav" "de-DE") "gs://b1/call.m4a_converted.wav";
          UploadFromString "b1" "call.m4a.txt"
            (PyStr.join PyStr.newline ["Guten Tag."; "Wie geht es?"]) "text/plain"]
    /\ removed_after_upload "/tmp/call.m4a" "call.m4a_converted.wav" (trace w') = false
    /\ removed_after_upload "/tmp/call.m4a_converted.wav" "call.m4a_converted.wav" (trace w')
       = true.
Proof. eexists. split; [vm_compute; reflexivity|]. vm_compute. auto. Qed.

(** C1, amended: for a key with extension [m4a] (in any case) and a run
    in which download, transcoding, uploads and transcription succeed, the
    handler makes exactly these calls, in this order: the download; one
    run of the transcoder with codec [pcm_s16le] and rate [16000]; the
    removal of the downloaded original; one upload of the converted object
    under [<key>_converted.wav]; the removal of the converted temporary;
    one recognition with [LINEAR16] on the converted object's location;
    one upload of the transcript under [<key>.txt].  Afterwards the
    container holds what it held plus these two objects, and neither local
    temporary is left. *)
Theorem m4a_source_run fuel env event w b n data files_after original wav
    operation polls response pieces :
  names event b n ->
  file_extension_of n = "m4a" ->
  download_fault env b n = None -> objects w !! (b, n) = Some data ->
  run_process env (ffmpeg_argv (local_path n) (local_path (converted_name n)))
    (<[local_path n := data]> (files w)) = ProcExit 0 files_after ->
  files_after !! local_path n = Some original ->
  files_after !! local_path (converted_name n) = Some wav ->
  upload_fault env b (converted_name n) = None ->
  recognize env (config_for "wav" "de-DE") (gs_uri b (converted_name n)) = inr operation ->
  first_done operation polls -> (polls < fuel)%nat ->
  op_result operation 1000 = inr response ->
  top_alternatives (results response) pieces ->
  upload_fault env b (transcript_name n) = None ->
  exists w' t,
    process_audio fuel env event w = Returned tt w'
    /\ trace w' = trace w ++ t
    /\ service_calls t
       = [Download b n (local_path n);
          Run ["ffmpeg"; "-y"; "-i"; local_path n; "-acodec"; "pcm_s16le";
               "-ar"; "16000"; local_path (converted_name n)];
          Remove (local_path n);
          UploadFromFilename b (converted_name n) (local_path (converted_name n));
          Remove (local_path (converted_name n));
          LongRunningRecognize
            {| encoding := LINEAR16; sample_rate_hertz := 16000;
               language_code := "de-DE"; enable_automatic_punctuation := true |}
            (gs_uri b (converted_name n));
          UploadFromString b (transcript_name n)
            (PyStr.join PyStr.newline pieces) "text/plain"]
    /\ objects w'
       = <[(b, transcript_name n) := PyStr.join PyStr.newline pieces]>
           (<[(b, converted_name n) := wav]> (objects w))
    /\ files w' !! local_path n = None
    /\ files w' !! local_path (converted_name n) = None.
Proof.
  intros Hnames Hext Hdl Hobj Hrun Horig Hwav Hupc Hrec Hdone Hfuel Hres Htop Hup.
  eexists _, _. split; [eapply m4a_run; eassumption|].
  cbn [trace objects files]. split; [reflexivity|].
  split.
  - unfold m4a_events. rewrite !service_calls_app, service_calls_transcribe_events.
    reflexivity.
  - split; [reflexivity|]. split.
    + rewrite lookup_delete_ne by (intros E; exact (converted_path_fresh n (eq_sym E))).
      apply lookup_delete_eq.
    + apply lookup_delete_eq.
Qed.

(** Facts about the concrete environment. *)
Lemma demo_names name : name <> "" -> names (demo_event name) "b1" name.
Proof.
  intros Hname. unfold names, demo_event.
  rewrite lookup_insert_eq, lookup_insert_ne, lookup_insert_eq by discriminate.
  repeat split; [discriminate | exact Hname].
Qed.

Lemma demo_first_done : first_done demo_operation 2.
Proof.
  split; [|reflexivity].
  intros j Hj. destruct j as [|[|j]]; [reflexivity | reflexivity | lia].
Qed.

Lemma demo_top_alternatives :
  top_alternatives (results demo_response) ["Guten Tag."; "Wie geht es?"].
Proof. repeat constructor. Qed.

Lemma m4a_source_run_witness :
  exists w',
    process_audio 3 demo_env (demo_event "call.M4A") (demo_world "call.M4A")
    = Returned tt w'
    /\ files w' !! "/tmp/call.M4A" = None
    /\ files w' !! "/tmp/call.M4A_converted.wav" = None.
Proof.
  destruct (m4a_source_run 3 demo_env (demo_event "call.M4A") (demo_world "call.M4A")
              "b1" "call.M4A" "bytes"
              (<["/tmp/call.M4A_converted.wav" := "RIFF"]> {["/tmp/call.M4A" := "bytes"]})
              "bytes" "RIFF" demo_operation 2 demo_response
              ["Guten Tag."; "Wie geht es?"])
    as (w' & t & Hrun & _ & _ & _ & Hlocal & Hconverted).
  - apply demo_names. discriminate.
  - reflexivity.
  - reflexivity.
  - vm_compute. reflexivity.
  - vm_compute. reflexivity.
  - vm_compute. reflexivity.
  - vm_compute. reflexivity.
  - reflexivity.
  - reflexivity.
  - exact demo_first_done.
  - lia.
  - reflexivity.
  - exact demo_top_alternatives.
  - reflexivity.
  - exists w'. auto.
Defined.

(** ** C2: nothing is raised to the caller *)

(** C2: whatever the event, the services and the world, an exception
    raised in the body of [process_audio] is caught by the handler of line
    98, which prints one line and returns; so [process_audio] either
    returns or is still polling an operation that has not completed: it
    never ends with an exception. *)
Theorem process_audio_never_raises fuel env event w :
  process_audio fuel env event w
  = match process_audio_body fuel env event w with
    | Raised e w' => Returned tt (after w' [Print (ErrorProcessingFile e)])
    | o => o
    end
  /\ ((exists w', process_audio fuel env event w = Returned tt w')
      \/ (process_audio fuel env event w = OutOfFuel /\ polling fuel env)).
Proof.
  split; [apply process_audio_catches|].
  rewrite process_audio_catches.
  destruct (process_audio_body fuel env event w) as [[] w'|e w'|] eqn:Hbody.
  - left. by exists w'.
  - left. by eexists.
  - right. split; [reflexivity|].
    exact (steady_process_audio_body fuel env event w Hbody).
Qed.

(** ** C3: the transcript text *)

(** What line 138 builds is the text the specification describes. *)
Lemma join_is_newline_separated pieces :
  PyStr.join PyStr.newline pieces = newline_separated pieces.
Proof.
  unfold PyStr.join.
  induction pieces as [|piece rest IH]; [reflexivity|].
  destruct rest as [|next rest]; [reflexivity|].
  change (piece +:+ PyStr.newline +:+ String.concat PyStr.newline (next :: rest)
          = piece +:+ String "010"%char (newline_separated (next :: rest))).
  rewrite IH. reflexivity.
Qed.

(** C3: when the operation completes and its result is fetched,
    [transcribe_audio] returns the transcripts of the first alternative of
    each result, in the order of the results, with one line feed between
    two neighbours; and it returns no other text. *)
Theorem transcript_is_joined_top_alternatives fuel env gcs_uri file_extension
    language_code w operation polls response :
  recognize env (config_for file_extension language_code) gcs_uri = inr operation ->
  first_done operation polls -> (polls < fuel)%nat ->
  op_result operation 1000 = inr response ->
  (forall pieces, top_alternatives (results response) pieces ->
     exists w', transcribe_audio fuel env gcs_uri file_extension language_code w
                = Returned (newline_separated pieces) w')
  /\ (forall text w',
        transcribe_audio fuel env gcs_uri file_extension language_code w
        = Returned text w' ->
        exists pieces, top_alternatives (results response) pieces
                       /\ text = newline_separated pieces).
Proof.
  intros Hrec Hdone Hfuel Hres. split.
  - intros pieces Htop. eexists.
    rewrite <- join_is_newline_separated.
    eapply transcribe_audio_run; eassumption.
  - intros text w' Hrun.
    destruct (transcribe_audio_returned _ _ _ _ _ _ _ _ Hrun)
      as (operation' & n & response' & pieces & Hrec' & _ & _ & Hres' & Htop & ->).
    rewrite Hrec in Hrec'. injection Hrec' as <-.
    rewrite Hres in Hres'. injection Hres' as <-.
    exists pieces. split; [exact Htop | apply join_is_newline_separated].
Qed.

Lemma transcript_is_joined_top_alternatives_witness :
  exists w',
    transcribe_audio 3 demo_env "gs://b1/call.wav" "wav" "de-DE" (demo_world "call.wav")
    = Returned ("Guten Tag." +:+ String "010"%char "Wie geht es?") w'.
Proof.
  destruct (transcript_is_joined_top_alternatives 3 demo_env "gs://b1/call.wav" "wav"
              "de-DE" (demo_world "call.wav") demo_operation 2 demo_response)
    as [Hreturns _].
  - reflexivity.
  - exact demo_first_done.
  - lia.
  - reflexivity.
  - exact (Hreturns ["Guten Tag."; "Wie geht es?"] demo_top_alternatives).
Defined.

(** Three pieces, letter by letter: two line feeds, none at the ends. *)
Example newline_separated_three :
  newline_separated ["ab"; "c"; "de"]
  = String "a" (String "b" (String "010"
      (String "c" (String "010" (String "d" (String "e" EmptyString)))))).
Proof. reflexivity. Qed.

Example demo_transcript :
  PyStr.join PyStr.newline ["Guten Tag."; "Wie geht es?"]
  = "Guten Tag." +:+ PyStr.newline +:+ "Wie geht es?".
Proof. reflexivity. Qed.

(** ** C4: [wav] and [mp3] sources *)

(** C4: for a key with extension [wav] that does not carry the
    converted-file marker, and for a key with extension [mp3], a run in
    which download, transcription and upload succeed makes exactly three
    calls: the download, one recognition on the source's own [gs://]
    location with [LINEAR16] for [wav] and [MP3] for [mp3], and one upload,
    of the transcript under [<key>.txt].  No transcoder runs, and the
    container holds what it held plus the transcript. *)
Theorem direct_source_run fuel env event w b n enc data operation polls response pieces :
  names event b n ->
  (file_extension_of n = "wav" /\ PyStr.contains "_converted" n = false /\ enc = LINEAR16)
  \/ (file_extension_of n = "mp3" /\ enc = MP3) ->
  download_fault env b n = None -> objects w !! (b, n) = Some data ->
  recognize env
    {| encoding := enc; sample_rate_hertz := 16000;
       language_code := "de-DE"; enable_automatic_punctuation := true |}
    (gs_uri b n) = inr operation ->
  first_done operation polls -> (polls < fuel)%nat ->
  op_result operation 1000 = inr response ->
  top_alternatives (results response) pieces ->
  upload_fault env b (transcript_name n) = None ->
  exists w' t,
    process_audio fuel env event w = Returned tt w'
    /\ trace w' = trace w ++ t
    /\ service_calls t
       = [Download b n (local_path n);
          LongRunningRecognize
            {| encoding := enc; sample_rate_hertz := 16000;
               language_code := "de-DE"; enable_automatic_punctuation := true |}
            ("gs://" +:+ b +:+ "/" +:+ n);
          UploadFromString b (n +:+ ".txt") (PyStr.join PyStr.newline pieces) "text/plain"]
    /\ uploads t
       = [UploadFromString b (n +:+ ".txt") (PyStr.join PyStr.newline pieces) "text/plain"]
    /\ objects w' = <[(b, n +:+ ".txt") := PyStr.join PyStr.newline pieces]> (objects w).
Proof.
  intros Hnames [(Hext & Hmark & ->) | (Hext & ->)] Hdl Hobj Hrec Hdone Hfuel Hres Htop Hup.
  - eexists _, _. split; [eapply wav_run; eassumption|].
    cbn [trace objects]. split; [reflexivity|].
    unfold wav_events.
    rewrite !service_calls_app, !uploads_app, service_calls_transcribe_events,
      uploads_transcribe_events.
    repeat split.
  - eexists _, _. split; [eapply mp3_run; eassumption|].
    cbn [trace objects]. split; [reflexivity|].
    unfold mp3_events.
    rewrite !service_calls_app, !uploads_app, service_calls_transcribe_events,
      uploads_transcribe_events.
    repeat split.
Qed.

Lemma direct_source_run_witness :
  exists w',
    process_audio 3 demo_env (demo_event "call.mp3") (demo_world "call.mp3")
    = Returned tt w'
    /\ objects w'
       = <[("b1", "call.mp3.txt") := PyStr.join PyStr.newline ["Guten Tag."; "Wie geht es?"]]>
           (objects (demo_world "call.mp3")).
Proof.
  destruct (direct_source_run 3 demo_env (demo_event "call.mp3") (demo_world "call.mp3")
              "b1" "call.mp3" MP3 "bytes" demo_operation 2 demo_response
              ["Guten Tag."; "Wie geht es?"])
    as (w' & t & Hrun & _ & _ & _ & Hobjects).
  - apply demo_names. discriminate.
  - right. split; reflexivity.
  - reflexivity.
  - vm_compute. reflexivity.
  - reflexivity.
  - exact demo_first_done.
  - lia.
  - reflexivity.
  - exact demo_top_alternatives.
  - reflexivity.
  - exists w'. auto.
Defined.

Example wav_source_run :
  exists w',
    process_audio 3 demo_env (demo_event "call.WAV") (demo_world "call.WAV")
    = Returned tt w'
    /\ service_calls (trace w')
       = [Download "b1" "call.WAV" "/tmp/call.WAV";
          LongRunningRecognize (config_for "wav" "de-DE") "gs://b1/call.WAV";
          UploadFromString "b1" "call.WAV.txt"
            (PyStr.join PyStr.newline ["Guten Tag."; "Wie geht es?"]) "text/plain"].
Proof. eexists. split; vm_compute; reflexivity. Qed.

(** ** C5: events without a container or a key *)

(** C5: when the event lacks [bucket] or [name], or carries an empty
    string for either, the handler prints the payload, then the
    [InvalidEvent] failure ([KeyError] for a missing field, the
    [ValueError] of line 20 for an empty one), and returns; it touches
    neither the container nor local storage. *)
Theorem invalid_event_run fuel env event w :
  event !! "bucket" = None \/ event !! "name" = None
  \/ event !! "bucket" = Some "" \/ event !! "name" = Some "" ->
  exists e,
    InvalidEvent event e
    /\ process_audio fuel env event w
       = Returned tt (after w [Print (EventPayload event); Print (ErrorProcessingFile e)])
    /\ uploads [Print (EventPayload event); Print (ErrorProcessingFile e)] = [].
Proof.
  intros Hinvalid.
  unfold process_audio, process_audio_body. exec.
  destruct (event !! "bucket") as [b|] eqn:Hb; exec.
  - destruct (event !! "name") as [n|] eqn:Hn; exec.
    + destruct b as [|c b]; cbn [PyStr.is_empty orb]; exec.
      * eexists. split; [apply empty_identifier|]. split; [same_world | reflexivity].
      * destruct n as [|d n]; cbn [PyStr.is_empty orb]; exec.
        -- eexists. split; [apply empty_identifier|]. split; [same_world | reflexivity].
        -- exfalso. destruct Hinvalid as [H|[H|[H|H]]]; discriminate.
    + eexists. split; [apply missing_name|]. split; [same_world | reflexivity].
  - eexists. split; [apply missing_bucket|]. split; [same_world | reflexivity].
Qed.

Lemma invalid_event_run_witness :
  exists e,
    InvalidEvent {["bucket" := "b1"]} e
    /\ process_audio 0 demo_env {["bucket" := "b1"]} (demo_world "call.m4a")
       = Returned tt (after (demo_world "call.m4a")
                        [Print (EventPayload {["bucket" := "b1"]});
                         Print (ErrorProcessingFile e)])
    /\ uploads [Print (EventPayload {["bucket" := "b1"]}); Print (ErrorProcessingFile e)] = [].
Proof.
  apply (invalid_event_run 0 demo_env {["bucket" := "b1"]} (demo_world "call.m4a")).
  right. left. reflexivity.
Defined.

Example empty_name_run :
  process_audio 0 demo_env (demo_event "") (demo_world "call.m4a")
  = Returned tt
      (after (demo_world "call.m4a")
         [Print (EventPayload (demo_event ""));
          Print (ErrorProcessingFile (ValueError (MissingBucketOrName (demo_event ""))))]).
Proof. vm_compute. reflexivity. Qed.

(** ** C6: unsupported extensions *)

(** C6, as stated, at [{bucket: b1, name: notes.txt}] when the container
    holds no such object: the extension [txt] is unsupported, but the
    handler downloads before it looks at the format (line 37 precedes line
    86), the download fails, and the line printed is the download's
    failure; no [UnsupportedFormat] is logged. *)
Lemma unsupported_key_download_failure :
  file_extension_of "notes.txt" = "txt"
  /\ exists w',
       process_audio 0 demo_env (demo_event "notes.txt") (demo_world "call.m4a")
       = Returned tt w'
       /\ service_calls (trace w') = [Download "b1" "notes.txt" "/tmp/notes.txt"]
       /\ log_lines (trace w')
          = [EventPayload (demo_event "notes.txt");
             ProcessingFile "b1" "notes.txt";
             DownloadingTo "/tmp/notes.txt";
             ErrorProcessingFile (NotFound "b1" "notes.txt")].
Proof.
  split; [reflexivity|]. eexists.
  split; [vm_compute; reflexivity|]. split; vm_compute; reflexivity.
Qed.

(** C6, amended: for a key whose extension is none of [wav], [m4a],
    [mp3], the handler downloads the object, prints one failure and
    returns, without any upload and with the container unchanged; the
    failure printed is [UnsupportedFormat] when the download succeeded,
    and the failure of the download otherwise. *)
Theorem unsupported_format_run fuel env event w b n :
  names event b n ->
  file_extension_of n <> "wav" -> file_extension_of n <> "m4a" ->
  file_extension_of n <> "mp3" ->
  exists w' e,
    process_audio fuel env event w = Returned tt w'
    /\ trace w' = trace w ++ intake_events event b n ++ [Print (ErrorProcessingFile e)]
    /\ uploads (intake_events event b n ++ [Print (ErrorProcessingFile e)]) = []
    /\ objects w' = objects w
    /\ e = match download_fault env b n with
           | Some failure => failure
           | None =>
               match objects w !! (b, n) with
               | None => NotFound b n
               | Some _ => UnsupportedFormat (file_extension_of n)
               end
           end.
Proof.
  intros Hnames Hwav Hm4a Hmp3.
  rewrite (unsupported_run fuel env event w b n Hnames Hwav Hm4a Hmp3).
  destruct (download_fault env b n) as [failure|];
    [| destruct (objects w !! (b, n)) as [data|]];
    eexists _, _; (split; [reflexivity|]); cbn [trace objects after]; auto.
Qed.

Lemma unsupported_format_run_witness :
  exists w',
    process_audio 0 demo_env (demo_event "notes.pdf") (demo_world "notes.pdf")
    = Returned tt w'
    /\ trace w'
       = intake_events (demo_event "notes.pdf") "b1" "notes.pdf"
         ++ [Print (ErrorProcessingFile (UnsupportedFormat "pdf"))]
    /\ objects w' = objects (demo_world "notes.pdf").
Proof.
  destruct (unsupported_format_run 0 demo_env (demo_event "notes.pdf")
              (demo_world "notes.pdf") "b1" "notes.pdf")
    as (w' & e & Hrun & Htrace & _ & Hobjects & He).
  - apply demo_names. discriminate.
  - discriminate.
  - discriminate.
  - discriminate.
  - exists w'. split; [exact Hrun|]. split; [|exact Hobjects].
    rewrite Htrace, He. vm_compute. reflexivity.
Defined.

(** ** C7: converted files are skipped *)

(** C7: for a key that has extension [wav] and contains [_converted], the
    handler prints three lines and returns: no download, no upload, no
    recognition, and the world is otherwise as it was. *)
Theorem converted_file_skipped fuel env event w b n :
  names event b n ->
  file_extension_of n = "wav" -> PyStr.contains "_converted" n = true ->
  process_audio fuel env event w
  = Returned tt
      (after w [Print (EventPayload event);
                Print (ProcessingFile b n);
                Print (SkippingConverted n)])
  /\ service_calls [Print (EventPayload event);
                    Print (ProcessingFile b n);
                    Print (SkippingConverted n)] = [].
Proof.
  intros Hnames Hext Hmark. split; [|reflexivity].
  enter Hnames. rewrite Hext, Hmark. eval_eqb. exec. same_world.
Qed.

Lemma converted_file_skipped_witness :
  process_audio 0 demo_env (demo_event "call.m4a_converted.wav") (demo_world "call.m4a")
  = Returned tt
      (after (demo_world "call.m4a")
         [Print (EventPayload (demo_event "call.m4a_converted.wav"));
          Print (ProcessingFile "b1" "call.m4a_converted.wav");
          Print (SkippingConverted "call.m4a_converted.wav")]).
Proof.
  apply (converted_file_skipped 0 demo_env (demo_event "call.m4a_converted.wav")
           (demo_world "call.m4a") "b1" "call.m4a_converted.wav").
  - apply demo_names. discriminate.
  - reflexivity.
  - reflexivity.
Defined.

(** ** C8: the local staging file *)

(** C8 at [{bucket: b1, name: call.wav}] with every service succeeding:
    the run completes and stores the transcript, and the staging copy
    [/tmp/call.wav] is still there; the [wav] branch (lines 40-50) has no
    [os.remove], unlike the [m4a] branch (lines 65-66, 78-79). *)
Theorem wav_staging_file_remains :
  exists w',
    process_audio 3 demo_env (demo_event "call.wav") (demo_world "call.wav")
    = Returned tt w'
    /\ files w' !! local_path "call.wav" = Some "bytes"
    /\ List.filter (is_remove_of (local_path "call.wav")) (trace w') = []
    /\ objects w' !! ("b1", "call.wav.txt")
       = Some (PyStr.join PyStr.newline ["Guten Tag."; "Wie geht es?"]).
Proof.
  eexists. split; [vm_compute; reflexivity|].
  split; [|split]; vm_compute; reflexivity.
Qed.

(** The same for [mp3]: the staging copy outlives the run. *)
Example mp3_staging_file_remains :
  exists w',
    process_audio 3 demo_env (demo_event "call.mp3") (demo_world "call.mp3")
    = Returned tt w'
    /\ files w' !! local_path "call.mp3" = Some "bytes".
Proof. eexists. split; vm_compute; reflexivity. Qed.

(** ** C9: the polling loop *)

(** C9: the loop of lines 126-132 has no bound of its own.  It ends
    exactly when some poll reports completion; an operation first done at
    poll [n] makes it go round [n] times, for every [n], each round
    sleeping 5 seconds; an operation that never reports completion keeps
    it going.  After the loop, the result is fetched with a timeout of
    1000 seconds, and an exception of that fetch is printed and raised
    again by [transcribe_audio]. *)
Theorem poll_loop_unbounded :
  (forall operation w,
     (exists fuel w', poll_loop fuel operation 0 w = Returned tt w')
     <-> (exists n, op_done operation n = true))
  /\ (forall operation n fuel w,
        first_done operation n -> (n < fuel)%nat ->
        poll_loop fuel operation 0 w = Returned tt (after w (poll_events operation 0 n))
        /\ sleeps (poll_events operation 0 n) = repeat (Sleep 5) n)
  /\ (forall n, exists operation, first_done operation n)
  /\ (forall operation fuel w,
        (forall n, op_done operation n = false) ->
        poll_loop fuel operation 0 w = OutOfFuel)
  /\ (forall fuel env gcs_uri file_extension language_code w operation n e,
        recognize env (config_for file_extension language_code) gcs_uri = inr operation ->
        first_done operation n -> (n < fuel)%nat ->
        op_result operation 1000 = inl e ->
        transcribe_audio fuel env gcs_uri file_extension language_code w
        = Raised e
            (after w (transcribe_prefix gcs_uri file_extension language_code operation n
                      ++ [Print (ErrorDuringTranscription e)]))
        /\ last (transcribe_prefix gcs_uri file_extension language_code operation n)
           = Some (FetchResult 1000)).
Proof.
  split; [|split; [|split; [|split]]].
  - intros operation w. split.
    + intros (fuel & w' & Hrun).
      destruct (poll_loop_cases operation fuel 0 w) as [Hout | (n & _ & [_ Hdone] & _)].
      * rewrite Hout in Hrun. discriminate.
      * exists n. exact Hdone.
    + intros (n & Hdone).
      destruct (first_done_exists operation n Hdone) as (m & _ & Hfirst).
      exists (S m). eexists. apply poll_loop_run; [exact Hfirst | lia].
  - intros operation n fuel w Hfirst Hfuel. split.
    + by apply poll_loop_run.
    + apply sleeps_poll_events.
  - intros n.
    exists {| op_done := fun i => (n <=? i)%nat;
              op_metadata := fun _ => None;
              op_result := fun _ => inl TimeoutError |}.
    split; simpl.
    + intros j Hj. apply Nat.leb_gt. exact Hj.
    + apply Nat.leb_refl.
  - intros operation fuel w Hpending. apply poll_loop_pending. intros j _. apply Hpending.
  - intros fuel env gcs_uri file_extension language_code w operation n e Hrec Hfirst Hfuel Hres.
    split.
    + by apply transcribe_audio_fetch_raises.
    + unfold transcribe_prefix. rewrite !app_assoc. apply last_snoc.
Qed.

(** A stuck operation exhausts any fuel; a timed-out fetch is raised. *)
Example stuck_operation_never_ends fuel w : poll_loop fuel stuck_operation 0 w = OutOfFuel.
Proof. apply poll_loop_pending. reflexivity. Qed.

Example late_operation_times_out :
  exists w',
    transcribe_audio 1
      {| download_fault := fun _ _ => None;
         download_leaves := fun _ _ => Some "";
         upload_fault := fun _ _ => None;
         run_process := fun _ fs => ProcExit 0 fs;
         recognize := fun _ _ => inr late_operation |}
      "gs://b1/call.wav" "wav" "de-DE" (demo_world "call.wav")
    = Raised TimeoutError w'.
Proof. eexists. vm_compute. reflexivity. Qed.

(** ** C10: the handler's own transcript as a trigger *)

(** C10, as stated, at [{bucket: b1, name: call.m4a.txt}] with the
    transcript object in the container and a storage service that fails
    the download: the claim has the handler fail with the
    unsupported-format error after the download, but the download of line
    37 raises first and the line printed is its failure; no
    [UnsupportedFormat] is logged. *)
Lemma transcript_object_download_failure :
  file_extension_of "call.m4a.txt" = "txt"
  /\ objects (demo_world "call.m4a.txt") !! ("b1", "call.m4a.txt") = Some "bytes"
  /\ exists w',
       process_audio 0 unavailable_storage_env (demo_event "call.m4a.txt")
         (demo_world "call.m4a.txt")
       = Returned tt w'
       /\ service_calls (trace w') = [Download "b1" "call.m4a.txt" "/tmp/call.m4a.txt"]
       /\ log_lines (trace w')
          = [EventPayload (demo_event "call.m4a.txt");
             ProcessingFile "b1" "call.m4a.txt";
             DownloadingTo "/tmp/call.m4a.txt";
             ErrorProcessingFile (GoogleAPIError "503")].
Proof.
  split; [reflexivity|]. split; [vm_compute; reflexivity|]. eexists.
  split; [vm_compute; reflexivity|]. split; vm_compute; reflexivity.
Qed.

(** C10, amended: the transcript is stored under [<name>.txt], whose
    extension is [txt]; an event for that object passes the
    converted-file guard, so the handler always attempts the download
    first and is never cleanly skipped; it then prints one failure and
    returns, without any upload and with the container unchanged.  The
    failure printed is [UnsupportedFormat txt] when the download
    succeeded, and the failure of the download otherwise. *)
Theorem transcript_object_rejected_after_download fuel env event w b n :
  names event b (transcript_name n) ->
  file_extension_of (transcript_name n) = "txt"
  /\ exists w' e,
       process_audio fuel env event w = Returned tt w'
       /\ trace w'
          = trace w ++ intake_events event b (transcript_name n)
            ++ [Print (ErrorProcessingFile e)]
       /\ service_calls (intake_events event b (transcript_name n)
                         ++ [Print (ErrorProcessingFile e)])
          = [Download b (transcript_name n) (local_path (transcript_name n))]
       /\ objects w' = objects w
       /\ e = match download_fault env b (transcript_name n) with
              | Some failure => failure
              | None =>
                  match objects w !! (b, transcript_name n) with
                  | None => NotFound b (transcript_name n)
                  | Some _ => UnsupportedFormat "txt"
                  end
              end.
Proof.
  intros Hnames.
  pose proof (file_extension_txt n) as Hext. fold (transcript_name n) in Hext.
  split; [exact Hext|].
  rewrite (unsupported_run fuel env event w b (transcript_name n) Hnames)
    by (rewrite Hext; discriminate).
  rewrite Hext.
  destruct (download_fault env b (transcript_name n)) as [failure|];
    [| destruct (objects w !! (b, transcript_name n)) as [data|]];
    eexists _, _; (split; [reflexivity|]); cbn [trace objects after]; auto.
Qed.

Lemma transcript_object_rejected_after_download_witness :
  exists w',
    process_audio 0 demo_env (demo_event "call.m4a.txt") (demo_world "call.m4a.txt")
    = Returned tt w'
    /\ log_lines (trace w')
       = [EventPayload (demo_event "call.m4a.txt");
          ProcessingFile "b1" "call.m4a.txt";
          DownloadingTo "/tmp/call.m4a.txt";
          ErrorProcessingFile (UnsupportedFormat "txt")].
Proof.
  destruct (transcript_object_rejected_after_download 0 demo_env
              (demo_event "call.m4a.txt") (demo_world "call.m4a.txt") "b1" "call.m4a")
    as (_ & w' & e & Hrun & Htrace & _ & _ & He).
  - apply (demo_names "call.m4a.txt"). discriminate.
  - exists w'. split; [exact Hrun|].
    rewrite Htrace, He. vm_compute. reflexivity.
Defined.

(** * Further properties of the handler *)

(** ** The extension of a key *)

Lemma contains_unfold needle s :
  PyStr.contains needle s
  = String.prefix needle s
    || match s with
       | EmptyString => false
       | String _ s' => PyStr.contains needle s'
       end.
Proof. destruct s; reflexivity. Qed.

Lemma prefix_empty s : String.prefix "" s = true.
Proof. destruct s; reflexivity. Qed.

(** A piece without the separator is not split. *)
Lemma split_no_dot s : PyStr.contains "." s = false -> PyStr.split "." s = [s].
Proof.
  induction s as [|c s IH]; [reflexivity|].
  rewrite contains_unfold. intros Hno.
  apply orb_false_iff in Hno as [Hhead Htail].
  simpl. destruct (Ascii.eqb_spec c ".") as [->|Hc].
  - simpl in Hhead. rewrite prefix_empty in Hhead. discriminate.
  - rewrite (IH Htail). reflexivity.
Qed.

(** X1: the extension is the lowercased text after the last dot of the
    key, whatever comes before that dot. *)
Theorem extension_after_last_dot stem ext :
  PyStr.contains "." ext = false ->
  file_extension_of (stem +:+ "." +:+ ext) = PyStr.lower ext.
Proof.
  intros Hno. unfold file_extension_of.
  change ("." +:+ ext) with (String "." ext).
  rewrite last_item_split_app, (split_no_dot ext Hno). reflexivity.
Qed.

Lemma extension_after_last_dot_witness :
  file_extension_of ("archive.2024/Call.Final" +:+ "." +:+ "Mp3") = "mp3".
Proof.
  apply (extension_after_last_dot "archive.2024/Call.Final" "Mp3"). reflexivity.
Defined.

(** X2: a key without any dot is its own extension: the handler treats
    an object that is just named [wav], [M4A] or [mp3] as audio of that
    format. *)
Theorem extension_of_dotless_key file_name :
  PyStr.contains "." file_name = false ->
  file_extension_of file_name = PyStr.lower file_name.
Proof.
  intros Hno. unfold file_extension_of. by rewrite (split_no_dot file_name Hno).
Qed.

Lemma extension_of_dotless_key_witness : file_extension_of "M4A" = "m4a".
Proof. apply (extension_of_dotless_key "M4A"). reflexivity. Defined.

(** ** The handler's own converted object as a trigger *)

Lemma contains_app_r needle s t :
  PyStr.contains needle t = true -> PyStr.contains needle (s +:+ t) = true.
Proof.
  intros Ht. induction s as [|c s IH]; [exact Ht|].
  simpl. rewrite IH. apply orb_true_r.
Qed.

Lemma append_assoc (s t u : string) : (s +:+ t) +:+ u = s +:+ (t +:+ u).
Proof.
  induction s as [|c s IH]; [reflexivity|].
  change (String c ((s +:+ t) +:+ u) = String c (s +:+ (t +:+ u))). by rewrite IH.
Qed.

Lemma converted_name_is_marked n :
  file_extension_of (converted_name n) = "wav"
  /\ PyStr.contains "_converted" (converted_name n) = true.
Proof.
  unfold converted_name. split.
  - unfold file_extension_of.
    change "_converted.wav" with ("_converted" +:+ String "." "wav").
    rewrite <- append_assoc, last_item_split_app. reflexivity.
  - by apply contains_app_r.
Qed.

(** X3: the converted object that the [m4a] branch uploads, under
    [<key>_converted.wav], never starts a second conversion or
    transcription: for every key, an event that names it is skipped by the
    guard of lines 26-28, whatever the key is. *)
Theorem own_converted_output_skipped fuel env event w b n :
  names event b (converted_name n) ->
  process_audio fuel env event w
  = Returned tt
      (after w [Print (EventPayload event);
                Print (ProcessingFile b (converted_name n));
                Print (SkippingConverted (converted_name n))]).
Proof.
  intros Hnames. destruct (converted_name_is_marked n) as [Hext Hmark].
  enter Hnames. rewrite Hext, Hmark. eval_eqb. exec. same_world.
Qed.

Lemma own_converted_output_skipped_witness :
  process_audio 0 demo_env (demo_event (converted_name "a.b/call.m4a")) (demo_world "x")
  = Returned tt
      (after (demo_world "x")
         [Print (EventPayload (demo_event (converted_name "a.b/call.m4a")));
          Print (ProcessingFile "b1" (converted_name "a.b/call.m4a"));
          Print (SkippingConverted (converted_name "a.b/call.m4a"))]).
Proof.
  apply (own_converted_output_skipped 0 demo_env
           (demo_event (converted_name "a.b/call.m4a")) (demo_world "x") "b1" "a.b/call.m4a").
  apply (demo_names (converted_name "a.b/call.m4a")). discriminate.
Defined.

(** ** Runs in which a step fails *)

Ltac unfold_more :=
  unfold submission_events, conversion_events; unfold_events.

(** X4: when the download fails, for a key of any extension that the
    guard does not skip, the handler prints that failure and returns; the
    container is unchanged, neither the transcoder nor the speech service
    is called, and local storage differs from before at the download
    target [/tmp/<key>] at most, where the failed download leaves what it
    leaves: the handler does not clean it up. *)
Theorem download_failure_run fuel env event w b n e :
  names event b n ->
  (file_extension_of n =? "wav") && PyStr.contains "_converted" n = false ->
  download_fault env b n = Some e
  \/ (download_fault env b n = None /\ objects w !! (b, n) = None /\ e = NotFound b n) ->
  exists w',
    process_audio fuel env event w = Returned tt w'
    /\ trace w'
       = trace w ++ intake_events event b n ++ [Print (ErrorProcessingFile e)]
    /\ service_calls (intake_events event b n ++ [Print (ErrorProcessingFile e)])
       = [Download b n (local_path n)]
    /\ objects w' = objects w
    /\ files w' !! local_path n = download_leaves env b n
    /\ forall path, path <> local_path n -> files w' !! path = files w !! path.
Proof.
  intros Hnames Hguard Hfail.
  assert (process_audio fuel env event w
          = Returned tt
              {| objects := objects w;
                 files := files_after_failed_download env b n (local_path n) (files w);
                 trace := trace w ++ intake_events event b n
                          ++ [Print (ErrorProcessingFile e)] |}) as ->.
  { enter Hnames. rewrite Hguard. exec.
    destruct Hfail as [Hdl | (Hdl & Hobj & ->)]; rewrite Hdl; exec.
    - unfold_events. same_world.
    - rewrite Hobj. exec. unfold_events. same_world. }
  eexists. split; [reflexivity|]. cbn [trace objects files].
  split; [reflexivity|]. split; [reflexivity|]. split; [reflexivity|].
  unfold files_after_failed_download.
  destruct (download_leaves env b n) as [partial|]; split.
  - apply lookup_insert_eq.
  - intros path Hpath. by apply lookup_insert_ne.
  - apply lookup_delete_eq.
  - intros path Hpath. by apply lookup_delete_ne.
Qed.

Lemma download_failure_run_witness :
  exists w',
    process_audio 0 demo_env (demo_event "call.mp3") (demo_world "other.mp3")
    = Returned tt w'
    /\ log_lines (trace w')
       = [EventPayload (demo_event "call.mp3");
          ProcessingFile "b1" "call.mp3";
          DownloadingTo "/tmp/call.mp3";
          ErrorProcessingFile (NotFound "b1" "call.mp3")]
    /\ objects w' = objects (demo_world "other.mp3")
    /\ files w' !! "/tmp/call.mp3" = Some "".
Proof.
  destruct (download_failure_run 0 demo_env (demo_event "call.mp3") (demo_world "other.mp3")
              "b1" "call.mp3" (NotFound "b1" "call.mp3"))
    as (w' & Hrun & Htrace & _ & Hobjects & Htarget & _).
  - apply demo_names. discriminate.
  - reflexivity.
  - right. split; [reflexivity|]. split; [vm_compute; reflexivity | reflexivity].
  - exists w'. split; [exact Hrun|]. split; [|split; [exact Hobjects | exact Htarget]].
    rewrite Htrace. reflexivity.
Defined.

(** X5: when the transcoder exits with a code other than 0, the handler
    prints the [ffmpeg] failure (line 61) and then the handler's line
    (line 99), and returns: nothing is uploaded, no recognition is
    submitted, and the local files stay as the transcoder left them: the
    downloaded original is not removed. *)
Theorem transcoder_failure_run fuel env event w b n data code files_after :
  names event b n ->
  file_extension_of n = "m4a" ->
  download_fault env b n = None -> objects w !! (b, n) = Some data ->
  run_process env (ffmpeg_argv (local_path n) (local_path (converted_name n)))
    (<[local_path n := data]> (files w)) = ProcExit code files_after ->
  code <> 0%Z ->
  process_audio fuel env event w
  = Returned tt
      {| objects := objects w;
         files := files_after;
         trace := trace w
                  ++ intake_events event b n
                  ++ [Print ConvertingM4a;
                      Run (ffmpeg_argv (local_path n) (local_path (converted_name n)));
                      Print (FfmpegFailed
                               (CalledProcessError code
                                  (ffmpeg_argv (local_path n) (local_path (converted_name n)))));
                      Print (ErrorProcessingFile
                               (CalledProcessError code
                                  (ffmpeg_argv (local_path n) (local_path (converted_name n)))))] |}.
Proof.
  intros Hnames Hext Hdl Hobj Hrun Hcode.
  apply Z.eqb_neq in Hcode.
  enter Hnames. rewrite Hext. eval_eqb. exec.
  rewrite Hdl, Hobj. exec. eval_eqb. exec.
  unfold convert_m4a. exec.
  unfold local_path, converted_name in *.
  rewrite Hrun. exec. rewrite Hcode. exec.
  unfold_events. same_world.
Qed.

Lemma transcoder_failure_run_witness :
  exists w',
    process_audio 0 failing_transcoder_env (demo_event "call.m4a") (demo_world "call.m4a")
    = Returned tt w'
    /\ objects w' = objects (demo_world "call.m4a")
    /\ files w' = {[ "/tmp/call.m4a" := "bytes" ]}.
Proof.
  eexists. split.
  - apply (transcoder_failure_run 0 failing_transcoder_env (demo_event "call.m4a")
             (demo_world "call.m4a") "b1" "call.m4a" "bytes" 1).
    + apply demo_names. discriminate.
    + reflexivity.
    + reflexivity.
    + vm_compute. reflexivity.
    + reflexivity.
    + discriminate.
  - split; reflexivity.
Defined.

(** X6: when the transcoder cannot be started at all, the exception is
    not a [CalledProcessError], so the inner handler of lines 60-62 lets
    it pass without its line, and only the handler of line 98 prints it;
    nothing is uploaded and the downloaded original stays in local
    storage. *)
Theorem transcoder_not_started_run fuel env event w b n data e :
  names event b n ->
  file_extension_of n = "m4a" ->
  download_fault env b n = None -> objects w !! (b, n) = Some data ->
  run_process env (ffmpeg_argv (local_path n) (local_path (converted_name n)))
    (<[local_path n := data]> (files w)) = ProcFault e ->
  process_audio fuel env event w
  = Returned tt
      {| objects := objects w;
         files := <[local_path n := data]> (files w);
         trace := trace w
                  ++ intake_events event b n
                  ++ [Print ConvertingM4a;
                      Run (ffmpeg_argv (local_path n) (local_path (converted_name n)))]
                  ++ match e with
                     | CalledProcessError _ _ => [Print (FfmpegFailed e)]
                     | _ => []
                     end
                  ++ [Print (ErrorProcessingFile e)] |}.
Proof.
  intros Hnames Hext Hdl Hobj Hrun.
  enter Hnames. rewrite Hext. eval_eqb. exec.
  rewrite Hdl, Hobj. exec. eval_eqb. exec.
  unfold convert_m4a. exec.
  unfold local_path, converted_name in *.
  rewrite Hrun. exec.
  destruct e; exec; unfold_events; same_world.
Qed.

Lemma transcoder_not_started_run_witness :
  exists w',
    process_audio 0 missing_transcoder_env (demo_event "call.m4a") (demo_world "call.m4a")
    = Returned tt w'
    /\ log_lines (trace w')
       = [EventPayload (demo_event "call.m4a");
          ProcessingFile "b1" "call.m4a";
          DownloadingTo "/tmp/call.m4a";
          ConvertingM4a;
          ErrorProcessingFile (OSError "ffmpeg")].
Proof.
  eexists. split.
  - apply (transcoder_not_started_run 0 missing_transcoder_env (demo_event "call.m4a")
             (demo_world "call.m4a") "b1" "call.m4a" "bytes" (OSError "ffmpeg")).
    + apply demo_names. discriminate.
    + reflexivity.
    + reflexivity.
    + vm_compute. reflexivity.
    + reflexivity.
  - reflexivity.
Defined.

(** X7: when the upload of the converted object fails, the handler
    prints that failure and returns without submitting a recognition; the
    container is unchanged, the downloaded original is already removed,
    and the converted temporary is left in local storage, because its
    removal (lines 78-79) comes after the upload. *)
Theorem converted_upload_failure_run fuel env event w b n data files_after original wav e :
  names event b n ->
  file_extension_of n = "m4a" ->
  download_fault env b n = None -> objects w !! (b, n) = Some data ->
  run_process env (ffmpeg_argv (local_path n) (local_path (converted_name n)))
    (<[local_path n := data]> (files w)) = ProcExit 0 files_after ->
  files_after !! local_path n = Some original ->
  files_after !! local_path (converted_name n) = Some wav ->
  upload_fault env b (converted_name n) = Some e ->
  process_audio fuel env event w
  = Returned tt
      {| objects := objects w;
         files := delete (local_path n) files_after;
         trace := trace w
                  ++ intake_events event b n
                  ++ conversion_events b n
                  ++ [Print (ErrorProcessingFile e)] |}.
Proof.
  intros Hnames Hext Hdl Hobj Hrun Horig Hwav Hupc.
  enter Hnames. rewrite Hext. eval_eqb. exec.
  rewrite Hdl, Hobj. exec. eval_eqb. exec.
  unfold convert_m4a. exec.
  pose proof (converted_path_fresh n) as Hfresh.
  unfold local_path, converted_name in *.
  rewrite Hrun. exec. change (0 =? 0)%Z with true. exec.
  rewrite Horig. exec. rewrite Horig. exec.
  rewrite lookup_delete_ne, Hwav by exact Hfresh.
  exec. rewrite Hupc. exec.
  unfold_more. same_world.
Qed.

Lemma converted_upload_failure_run_witness :
  exists w',
    process_audio 0 read_only_env (demo_event "call.m4a") (demo_world "call.m4a")
    = Returned tt w'
    /\ objects w' = objects (demo_world "call.m4a")
    /\ files w' !! "/tmp/call.m4a_converted.wav" = Some "RIFF"
    /\ files w' !! "/tmp/call.m4a" = None.
Proof.
  eexists. split.
  - apply (converted_upload_failure_run 0 read_only_env (demo_event "call.m4a")
             (demo_world "call.m4a") "b1" "call.m4a" "bytes"
             (<["/tmp/call.m4a_converted.wav" := "RIFF"]> {["/tmp/call.m4a" := "bytes"]})
             "bytes" "RIFF" (GoogleAPIError "forbidden")).
    + apply demo_names. discriminate.
    + reflexivity.
    + reflexivity.
    + vm_compute. reflexivity.
    + vm_compute. reflexivity.
    + vm_compute. reflexivity.
    + vm_compute. reflexivity.
    + reflexivity.
  - split; [reflexivity|]. split; vm_compute; reflexivity.
Defined.

Lemma transcribe_audio_refused fuel env gcs_uri file_extension language_code w e :
  recognize env (config_for file_extension language_code) gcs_uri = inl e ->
  transcribe_audio fuel env gcs_uri file_extension language_code w
  = Raised e (after w (submission_events gcs_uri file_extension language_code
                       ++ [Print (ErrorDuringTranscription e)])).
Proof.
  intros Hrec. unfold transcribe_audio. fold (config_for file_extension language_code).
  exec. rewrite Hrec. unfold submission_events, config_for. same_world.
Qed.

(** X8: when the conversion succeeds and the speech service then refuses
    the request, the failure is printed twice (lines 143 and 99) and the
    handler returns; the converted object stays in the container without
    a transcript beside it, and both local temporaries are removed. *)
Theorem conversion_without_transcript fuel env event w b n data files_after original wav e :
  names event b n ->
  file_extension_of n = "m4a" ->
  download_fault env b n = None -> objects w !! (b, n) = Some data ->
  run_process env (ffmpeg_argv (local_path n) (local_path (converted_name n)))
    (<[local_path n := data]> (files w)) = ProcExit 0 files_after ->
  files_after !! local_path n = Some original ->
  files_after !! local_path (converted_name n) = Some wav ->
  upload_fault env b (converted_name n) = None ->
  recognize env (config_for "wav" "de-DE") (gs_uri b (converted_name n)) = inl e ->
  process_audio fuel env event w
  = Returned tt
      {| objects := <[(b, converted_name n) := wav]> (objects w);
         files := delete (local_path (converted_name n)) (delete (local_path n) files_after);
         trace := trace w
                  ++ intake_events event b n
                  ++ conversion_events b n
                  ++ [Remove (local_path (converted_name n)); Print StartingTranscription]
                  ++ submission_events (gs_uri b (converted_name n)) "wav" "de-DE"
                  ++ [Print (ErrorDuringTranscription e); Print (ErrorProcessingFile e)] |}.
Proof.
  intros Hnames Hext Hdl Hobj Hrun Horig Hwav Hupc Hrec.
  enter Hnames. rewrite Hext. eval_eqb. exec.
  rewrite Hdl, Hobj. exec. eval_eqb. exec.
  unfold convert_m4a. exec.
  pose proof (converted_path_fresh n) as Hfresh.
  unfold local_path, converted_name in *.
  rewrite Hrun. exec. change (0 =? 0)%Z with true. exec.
  rewrite Horig. exec. rewrite Horig. exec.
  rewrite lookup_delete_ne, Hwav by exact Hfresh.
  exec. rewrite Hupc. exec.
  rewrite lookup_delete_ne, Hwav by exact Hfresh.
  exec. rewrite lookup_delete_ne, Hwav by exact Hfresh.
  exec.
  erewrite transcribe_audio_refused by exact Hrec.
  exec. unfold_more. same_world.
Qed.

Lemma conversion_without_transcript_witness :
  exists w',
    process_audio 0 refusing_speech_env (demo_event "call.m4a") (demo_world "call.m4a")
    = Returned tt w'
    /\ objects w'
       = <[("b1", "call.m4a_converted.wav") := "RIFF"]> (objects (demo_world "call.m4a"))
    /\ uploads (trace w')
       = [UploadFromFilename "b1" "call.m4a_converted.wav" "/tmp/call.m4a_converted.wav"].
Proof.
  eexists. split.
  - apply (conversion_without_transcript 0 refusing_speech_env (demo_event "call.m4a")
             (demo_world "call.m4a") "b1" "call.m4a" "bytes"
             (<["/tmp/call.m4a_converted.wav" := "RIFF"]> {["/tmp/call.m4a" := "bytes"]})
             "bytes" "RIFF" (GoogleAPIError "unavailable")).
    + apply demo_names. discriminate.
    + reflexivity.
    + reflexivity.
    + vm_compute. reflexivity.
    + vm_compute. reflexivity.
    + vm_compute. reflexivity.
    + vm_compute. reflexivity.
    + reflexivity.
    + reflexivity.
  - split; reflexivity.
Defined.

(** ** What every run keeps *)

(** Rules for [triple], for a relation [R] that is a preorder and holds
    across every effect that satisfies [P]. *)
Section Triples.

Variables (R : World -> World -> Prop) (P : effect -> Prop).
Hypothesis R_refl : forall w, R w w.
Hypothesis R_trans : forall w1 w2 w3, R w1 w2 -> R w2 w3 -> R w1 w3.
Hypothesis R_emit : forall w e, P e -> R w (after w [e]).
Hypothesis P_print : forall line, P (Print line).

Lemma triple_ret {A} (Q : A -> Prop) a : Q a -> triple R Q (ret a).
Proof. intros Ha w. simpl. auto. Qed.

Lemma triple_raise {A} (Q : A -> Prop) e : triple R Q (raise e).
Proof. intros w. simpl. auto. Qed.

Lemma triple_bind {A B} (Q : A -> Prop) (Q' : B -> Prop) (m : M A) (k : A -> M B) :
  triple R Q m -> (forall a, Q a -> triple R Q' (k a)) -> triple R Q' (bind m k).
Proof.
  intros Hm Hk w. unfold bind. specialize (Hm w).
  destruct (m w) as [a w1|e w1|]; [|exact Hm|exact I].
  destruct Hm as [Hw Ha]. specialize (Hk a Ha w1).
  destruct (k a w1) as [c w2|e w2|]; [|eauto|exact I].
  destruct Hk as [Hw' Hc]. eauto.
Qed.

Lemma triple_try_except {A} (Q : A -> Prop) (m : M A) (handler : exn -> M A) :
  triple R Q m -> (forall e, triple R Q (handler e)) -> triple R Q (try_except m handler).
Proof.
  intros Hm Hh w. unfold try_except. specialize (Hm w).
  destruct (m w) as [a w1|e w1|]; [exact Hm| |exact I].
  specialize (Hh e w1).
  destruct (handler e w1) as [c w2|e' w2|]; [|eauto|exact I].
  destruct Hh as [Hw' Hc]. eauto.
Qed.

Lemma triple_weaken {A} (Q Q' : A -> Prop) (m : M A) :
  (forall a, Q a -> Q' a) -> triple R Q m -> triple R Q' m.
Proof.
  intros HQ Hm w. specialize (Hm w).
  destruct (m w) as [a w1|e w1|]; [|exact Hm|exact I].
  destruct Hm. auto.
Qed.

Lemma triple_emit e : P e -> triple R (fun _ => True) (emit e).
Proof. intros He w. simpl. split; [|exact I]. apply R_emit, He. Qed.

Lemma triple_print line : triple R (fun _ => True) (print line).
Proof. apply triple_emit, P_print. Qed.

Lemma triple_poll_loop operation :
  (forall i, P (Done i)) -> P (Sleep 5) ->
  forall fuel i, triple R (fun _ => True) (poll_loop fuel operation i).
Proof.
  intros Hdone Hsleep.
  induction fuel as [|fuel IH]; intros i; [intros w; exact I|].
  simpl. apply triple_bind with (Q := fun _ => True).
  - unfold operation_done. apply triple_bind with (Q := fun _ => True).
    + apply triple_emit, Hdone.
    + intros _ _. by apply triple_ret.
  - intros finished _. destruct finished; [by apply triple_ret|].
    apply triple_bind with (Q := fun _ => True); [|intros _ _; apply IH].
    unfold poll_body. apply triple_bind with (Q := fun _ => True).
    + destruct (op_metadata operation i) as [[[percent|]]|]; apply triple_print.
    + intros _ _. apply triple_emit, Hsleep.
Qed.

Lemma triple_top_transcripts rs : triple R (fun _ => True) (top_transcripts rs).
Proof.
  induction rs as [|r rs IH]; simpl; [by apply triple_ret|].
  destruct (alternatives r) as [|alternative rest]; [apply triple_raise|].
  apply triple_bind with (Q := fun _ => True); [exact IH|].
  intros pieces _. by apply triple_ret.
Qed.

Lemma triple_transcribe_audio fuel env gcs_uri file_extension language_code :
  P LoggingBasicConfig ->
  P (LongRunningRecognize (config_for file_extension language_code) gcs_uri) ->
  (forall i, P (Done i)) -> P (Sleep 5) -> P (FetchResult 1000) ->
  triple R (fun _ => True)
    (transcribe_audio fuel env gcs_uri file_extension language_code).
Proof.
  intros Hconfig Hrecognize Hdone Hsleep Hfetch.
  unfold transcribe_audio. fold (config_for file_extension language_code).
  apply triple_try_except.
  2:{ intros e. apply triple_bind with (Q := fun _ => True);
        [apply triple_print | intros _ _; apply triple_raise]. }
  apply triple_bind with (Q := fun _ => True); [by apply triple_emit|]. intros _ _.
  do 5 (apply triple_bind with (Q := fun _ => True); [apply triple_print|]; intros _ _).
  apply triple_bind with (Q := fun _ => True).
  { unfold long_running_recognize.
    apply triple_bind with (Q := fun _ => True); [by apply triple_emit|]. intros _ _.
    destruct (recognize env (config_for file_extension language_code) gcs_uri);
      [apply triple_raise | by apply triple_ret]. }
  intros operation _.
  apply triple_bind with (Q := fun _ => True); [apply triple_print|]. intros _ _.
  apply triple_bind with (Q := fun _ => True); [by apply triple_poll_loop|]. intros _ _.
  apply triple_bind with (Q := fun _ => True).
  { unfold operation_result.
    apply triple_bind with (Q := fun _ => True); [by apply triple_emit|]. intros _ _.
    destruct (op_result operation 1000); [apply triple_raise | by apply triple_ret]. }
  intros response _.
  apply triple_bind with (Q := fun _ => True); [apply triple_print|]. intros _ _.
  apply triple_bind with (Q := fun _ => True); [apply triple_top_transcripts|].
  intros pieces _.
  apply triple_bind with (Q := fun _ => True); [apply triple_print|]. intros _ _.
  by apply triple_ret.
Qed.

End Triples.

Lemma same_storage_refl w : same_storage w w.
Proof. by split. Qed.

Lemma same_storage_trans w1 w2 w3 :
  same_storage w1 w2 -> same_storage w2 w3 -> same_storage w1 w3.
Proof. intros [H1 H2] [H3 H4]. split; congruence. Qed.

Lemma same_storage_emit w e : same_storage w (after w [e]).
Proof. by split. Qed.

(** X11: [transcribe_audio] writes nothing: however it ends, container
    and local files are as they were; and when it ends with an exception,
    the last thing it did was to print that exception (line 143). *)
Theorem transcribe_audio_keeps_storage fuel env gcs_uri file_extension language_code w :
  match transcribe_audio fuel env gcs_uri file_extension language_code w with
  | Returned _ w' => same_storage w w'
  | Raised e w' =>
      same_storage w w' /\ last (trace w') = Some (Print (ErrorDuringTranscription e))
  | OutOfFuel => True
  end.
Proof.
  pose proof (triple_transcribe_audio same_storage (fun _ => True)
                same_storage_refl same_storage_trans
                (fun w e _ => same_storage_emit w e) (fun _ => I)
                fuel env gcs_uri file_extension language_code I I (fun _ => I) I I w) as H.
  unfold transcribe_audio, try_except in *.
  match type of H with
  | match (match ?body with _ => _ end) with _ => _ end =>
      destruct body as [text w1|e w1|]
  end; [tauto | | exact I].
  cbv [bind print emit raise] in H |- *. cbn [trace objects files] in *.
  split; [exact H | apply last_snoc].
Qed.

Lemma within_refl b n w : within b n w w.
Proof. split; [exists []; by rewrite app_nil_r | auto]. Qed.

Lemma within_trans b n w1 w2 w3 : within b n w1 w2 -> within b n w2 w3 -> within b n w1 w3.
Proof.
  intros [(t & Ht & Hall) Hobj] [(t' & Ht' & Hall') Hobj']. split.
  - exists (t ++ t'). split; [by rewrite Ht', Ht, app_assoc | by apply Forall_app].
  - intros k Hc Ht0. by rewrite Hobj', Hobj.
Qed.

(** One allowed effect, with the local files changed in any way. *)
Lemma within_files b n w e fs :
  allowed b n e ->
  within b n w {| objects := objects w; files := fs; trace := trace w ++ [e] |}.
Proof. intros He. split; [exists [e]; by repeat constructor | auto]. Qed.

(** One allowed upload to one of the two derived keys. *)
Lemma within_upload b n w e key data :
  allowed b n e -> key = converted_name n \/ key = transcript_name n ->
  within b n w {| objects := <[(b, key) := data]> (objects w);
                  files := files w; trace := trace w ++ [e] |}.
Proof.
  intros He Hkey. split; [exists [e]; by repeat constructor|].
  intros k Hc Ht. cbn [objects]. apply lookup_insert_ne.
  destruct Hkey as [-> | ->]; congruence.
Qed.

Lemma within_emit b n w e : allowed b n e -> within b n w (after w [e]).
Proof. apply within_files. Qed.

Section Confined.

Variables (env : Env) (b n : string).

(** The operations of [process_audio], called as it calls them. *)
Lemma triple_download :
  triple (within b n) (fun _ => True) (download_to_filename env b n (local_path n)).
Proof.
  intros w. unfold download_to_filename. exec.
  destruct (download_fault env b n); exec; [by apply within_files|].
  destruct (objects w !! (b, n)); exec;
    [split; [|exact I] |]; by apply within_files.
Qed.

Lemma triple_subprocess :
  triple (within b n) (fun _ => True)
    (subprocess_run_check env (ffmpeg_argv (local_path n) (local_path (converted_name n)))).
Proof.
  intros w. unfold subprocess_run_check. exec.
  destruct (run_process env _ (files w)) as [e|code fs]; exec; [by apply within_files|].
  destruct (code =? 0)%Z; exec; [split; [|exact I] |]; by apply within_files.
Qed.

Lemma triple_os_remove path :
  path = local_path n \/ path = local_path (converted_name n) ->
  triple (within b n) (fun _ => True) (os_remove path).
Proof.
  intros Hpath w. unfold os_remove. exec.
  destruct (files w !! path); exec; [split; [|exact I] |]; by apply within_files.
Qed.

Lemma triple_os_path_exists path :
  triple (within b n) (fun _ => True) (os_path_exists path).
Proof. intros w. unfold os_path_exists. exec. split; [apply within_refl | exact I]. Qed.

Lemma triple_upload_from_filename :
  triple (within b n) (fun _ => True)
    (upload_from_filename env b (converted_name n) (local_path (converted_name n))).
Proof.
  intros w. unfold upload_from_filename. exec.
  destruct (files w !! local_path (converted_name n)); exec; [|by apply within_files].
  destruct (upload_fault env b (converted_name n)); exec; [by apply within_files|].
  split; [|exact I]. apply within_upload; [done | by left].
Qed.

Lemma triple_upload_from_string data :
  triple (within b n) (fun _ => True) (upload_from_string env b (transcript_name n) data "text/plain").
Proof.
  intros w. unfold upload_from_string. exec.
  destruct (upload_fault env b (transcript_name n)); exec; [by apply within_files|].
  split; [|exact I]. apply within_upload; [done | by right].
Qed.

Lemma triple_transcribe fuel gcs_uri file_extension :
  source_uri b n gcs_uri ->
  triple (within b n) (fun _ => True) (transcribe_audio fuel env gcs_uri file_extension "de-DE").
Proof.
  intros Huri.
  apply (triple_transcribe_audio (within b n) (allowed b n) (within_refl b n)
           (within_trans b n) (within_emit b n) (fun _ => I)); simpl; auto.
Qed.

Lemma within_bind {A B} (Q : A -> Prop) (Q' : B -> Prop) (m : M A) (k : A -> M B) :
  triple (within b n) Q m -> (forall a, Q a -> triple (within b n) Q' (k a)) ->
  triple (within b n) Q' (bind m k).
Proof. apply triple_bind, within_trans. Qed.

Lemma within_ret {A} (Q : A -> Prop) a : Q a -> triple (within b n) Q (ret a).
Proof. apply triple_ret, within_refl. Qed.

Lemma within_raise {A} (Q : A -> Prop) e : triple (within b n) Q (raise e).
Proof. apply triple_raise, within_refl. Qed.

Lemma within_print line : triple (within b n) (fun _ => True) (print line).
Proof. apply (triple_print (within b n) (allowed b n) (within_emit b n)). intros; exact I. Qed.

(** A step whose value does not matter, then the rest. *)
Ltac then_ tac :=
  apply within_bind with (Q := fun _ => True); [tac | intros ? _].

Lemma triple_convert_m4a :
  triple (within b n) (fun updated => source_uri b n (snd updated))
    (convert_m4a env b n (local_path n)).
Proof.
  unfold convert_m4a.
  then_ ltac:(apply within_print).
  then_ ltac:(apply triple_try_except;
              [apply within_trans | apply triple_subprocess
              | intros []; try apply within_raise;
                apply within_bind with (Q := fun _ => True);
                [apply within_print | intros _ _; apply within_raise]]).
  then_ ltac:(apply triple_os_path_exists).
  then_ ltac:(match goal with |- triple _ _ (if ?c then _ else _) => destruct c end;
              [apply triple_os_remove; by left | by apply within_ret]).
  then_ ltac:(apply within_print).
  then_ ltac:(apply triple_upload_from_filename).
  then_ ltac:(apply triple_os_path_exists).
  then_ ltac:(match goal with |- triple _ _ (if ?c then _ else _) => destruct c end;
              [apply triple_os_remove; by right | by apply within_ret]).
  apply within_ret. by right.
Qed.

Lemma triple_process_audio_body fuel event :
  event !! "bucket" = Some b -> event !! "name" = Some n ->
  triple (within b n) (fun _ => True) (process_audio_body fuel env event).
Proof.
  intros Hb Hn. unfold process_audio_body, getitem. rewrite Hb, Hn.
  then_ ltac:(apply within_print).
  apply within_bind with (Q := eq b); [by apply within_ret | intros ? <-].
  apply within_bind with (Q := eq n); [by apply within_ret | intros ? <-].
  then_ ltac:(match goal with |- triple _ _ (if ?c then _ else _) => destruct c end;
              [apply within_raise | by apply within_ret]).
  then_ ltac:(apply within_print).
  match goal with |- triple _ _ (if ?c then _ else _) => destruct c end;
    [apply within_print|].
  then_ ltac:(apply within_print).
  then_ ltac:(apply triple_download).
  destruct (file_extension_of n =? "wav").
  - then_ ltac:(apply within_print).
    then_ ltac:(apply triple_transcribe; by left).
    then_ ltac:(apply triple_upload_from_string).
    apply within_print.
  - apply within_bind with (Q := fun updated => source_uri b n (snd updated)).
    + destruct (file_extension_of n =? "m4a"); [apply triple_convert_m4a|].
      destruct (file_extension_of n =? "mp3"); [|apply within_raise].
      then_ ltac:(apply within_print). apply within_ret. by left.
    + intros updated Huri.
      then_ ltac:(apply within_print).
      then_ ltac:(by apply triple_transcribe).
      then_ ltac:(apply triple_upload_from_string).
      apply within_print.
Qed.

(** Every run of [process_audio] for the object [n] of [b] stays within. *)
Lemma process_audio_within fuel event w w' :
  event !! "bucket" = Some b -> event !! "name" = Some n ->
  process_audio fuel env event w = Returned tt w' -> within b n w w'.
Proof.
  intros Hb Hn Hrun.
  pose proof (triple_try_except (within b n) (within_trans b n) (fun _ => True)
                (process_audio_body fuel env event)
                (fun e => print (ErrorProcessingFile e))
                (triple_process_audio_body fuel event Hb Hn)
                (fun e => within_print (ErrorProcessingFile e)) w) as H.
  fold (process_audio fuel env event) in H. rewrite Hrun in H. apply H.
Qed.

End Confined.

(** Source, converted object and transcript have three different keys. *)
Lemma derived_keys_fresh n :
  n <> converted_name n /\ n <> transcript_name n
  /\ converted_name n <> transcript_name n.
Proof.
  unfold converted_name, transcript_name. repeat split; intros Heq;
    apply (f_equal String.length) in Heq; rewrite ?length_append in Heq;
    simpl in Heq; lia.
Qed.

(** X12: every run of the handler that returns, whatever the services
    answer, has done nothing beyond this: it downloaded the named object
    to [/tmp/<key>], ran [ffmpeg] with the arguments of line 58, removed
    its own two temporaries, uploaded to the same container under
    [<key>_converted.wav] and [<key>.txt], and submitted recognitions at
    16000 Hz, [de-DE], with punctuation, on the source or the converted
    object; sleeps are of 5 seconds and the fetch timeout is 1000. *)
Theorem effects_are_confined fuel env event w w' b n :
  event !! "bucket" = Some b -> event !! "name" = Some n ->
  process_audio fuel env event w = Returned tt w' ->
  exists t, trace w' = trace w ++ t /\ Forall (allowed b n) t.
Proof.
  intros Hb Hn Hrun.
  exact (proj1 (process_audio_within env b n fuel event w w' Hb Hn Hrun)).
Qed.

Lemma effects_are_confined_witness :
  exists w' t,
    process_audio 3 demo_env (demo_event "call.m4a") (demo_world "call.m4a")
    = Returned tt w'
    /\ trace w' = trace (demo_world "call.m4a") ++ t
    /\ Forall (allowed "b1" "call.m4a") t.
Proof.
  destruct (process_audio 3 demo_env (demo_event "call.m4a") (demo_world "call.m4a"))
    as [[] w'|e w'|] eqn:Hrun; [| vm_compute in Hrun; discriminate ..].
  destruct (effects_are_confined 3 demo_env (demo_event "call.m4a")
              (demo_world "call.m4a") w' "b1" "call.m4a") as (t & Htrace & Hallowed).
  - reflexivity.
  - reflexivity.
  - exact Hrun.
  - exists w', t. auto.
Defined.

(** X13: a run of the handler that returns leaves the source object as
    it was, and every other object of any container too, except the two
    derived keys [<key>_converted.wav] and [<key>.txt] of the same
    container. *)
Theorem other_objects_untouched fuel env event w w' b n :
  event !! "bucket" = Some b -> event !! "name" = Some n ->
  process_audio fuel env event w = Returned tt w' ->
  objects w' !! (b, n) = objects w !! (b, n)
  /\ forall k, k <> (b, converted_name n) -> k <> (b, transcript_name n) ->
               objects w' !! k = objects w !! k.
Proof.
  intros Hb Hn Hrun.
  destruct (process_audio_within env b n fuel event w w' Hb Hn Hrun) as [_ Hframe].
  split; [|exact Hframe].
  destruct (derived_keys_fresh n) as (Hc & Ht & _).
  apply Hframe; congruence.
Qed.

Lemma other_objects_untouched_witness :
  exists w',
    process_audio 3 demo_env (demo_event "call.m4a") (demo_world "call.m4a")
    = Returned tt w'
    /\ objects w' !! ("b1", "call.m4a") = Some "bytes".
Proof.
  destruct (process_audio 3 demo_env (demo_event "call.m4a") (demo_world "call.m4a"))
    as [[] w'|e w'|] eqn:Hrun; [| vm_compute in Hrun; discriminate ..].
  destruct (other_objects_untouched 3 demo_env (demo_event "call.m4a")
              (demo_world "call.m4a") w' "b1" "call.m4a") as [Hsource _].
  - reflexivity.
  - reflexivity.
  - exact Hrun.
  - exists w'. split; [reflexivity|]. rewrite Hsource. reflexivity.
Defined.

(** ** Responses without text *)

Lemma top_alternatives_not_hollow rs pieces :
  top_alternatives rs pieces -> Exists (fun r => alternatives r = []) rs -> False.
Proof.
  induction 1 as [|r t rs pieces Hhead _ IH]; intros Hex; inversion Hex; subst; auto.
  match goal with H : alternatives r = [] |- _ => rewrite H in Hhead end. discriminate.
Qed.

Lemma transcribe_audio_hollow fuel env gcs_uri file_extension language_code w
    operation polls response :
  recognize env (config_for file_extension language_code) gcs_uri = inr operation ->
  first_done operation polls -> (polls < fuel)%nat ->
  op_result operation 1000 = inr response ->
  Exists (fun r => alternatives r = []) (results response) ->
  transcribe_audio fuel env gcs_uri file_extension language_code w
  = Raised IndexError
      (after w (transcribe_prefix gcs_uri file_extension language_code operation polls
                ++ [Print OperationCompleted; Print (ErrorDuringTranscription IndexError)])).
Proof.
  intros Hrec Hdone Hfuel Hres Hhollow.
  unfold transcribe_audio, transcribe_prefix. fold (config_for file_extension language_code).
  exec. rewrite Hrec.
  rewrite poll_loop_run with (n := polls) by assumption.
  exec. rewrite Hres.
  match goal with |- context [top_transcripts (results response) ?W] =>
    destruct (top_transcripts_cases (results response) W)
      as [(pieces & Htop & _) | (_ & ->)]
  end; [destruct (top_alternatives_not_hollow _ _ Htop Hhollow)|].
  unfold config_for. same_world.
Qed.

(** X9: when the response holds a result that has no alternative, the
    indexing of line 138 raises [IndexError] after the result was
    fetched: for a [wav] source the failure is printed twice, no
    transcript is uploaded, not even of the results before it, and the
    container is unchanged. *)
Theorem result_without_alternative_run fuel env event w b n data operation polls response :
  names event b n ->
  file_extension_of n = "wav" -> PyStr.contains "_converted" n = false ->
  download_fault env b n = None -> objects w !! (b, n) = Some data ->
  recognize env (config_for "wav" "de-DE") (gs_uri b n) = inr operation ->
  first_done operation polls -> (polls < fuel)%nat ->
  op_result operation 1000 = inr response ->
  Exists (fun r => alternatives r = []) (results response) ->
  process_audio fuel env event w
  = Returned tt
      {| objects := objects w;
         files := <[local_path n := data]> (files w);
         trace := trace w
                  ++ intake_events event b n
                  ++ [Print AlreadyWav]
                  ++ transcribe_prefix (gs_uri b n) "wav" "de-DE" operation polls
                  ++ [Print OperationCompleted;
                      Print (ErrorDuringTranscription IndexError);
                      Print (ErrorProcessingFile IndexError)] |}.
Proof.
  intros Hnames Hext Hmark Hdl Hobj Hrec Hdone Hfuel Hres Hhollow.
  enter Hnames. rewrite Hext, Hmark. eval_eqb. exec.
  rewrite Hdl, Hobj. exec. eval_eqb. exec.
  erewrite transcribe_audio_hollow;
    [| exact Hrec | exact Hdone | exact Hfuel | exact Hres | exact Hhollow].
  exec. unfold_events. same_world.
Qed.

Lemma result_without_alternative_run_witness :
  exists w',
    process_audio 1 hollow_env (demo_event "call.wav") (demo_world "call.wav")
    = Returned tt w'
    /\ objects w' = objects (demo_world "call.wav")
    /\ uploads (trace w') = [].
Proof.
  eexists. split.
  - apply (result_without_alternative_run 1 hollow_env (demo_event "call.wav")
             (demo_world "call.wav") "b1" "call.wav" "bytes" hollow_operation 0
             {| results := [ {| alternatives := [ {| transcript := "Hallo" |} ] |};
                             {| alternatives := [] |} ] |}).
    + apply demo_names. discriminate.
    + reflexivity.
    + reflexivity.
    + reflexivity.
    + vm_compute. reflexivity.
    + reflexivity.
    + split; [intros j Hj; lia | reflexivity].
    + lia.
    + reflexivity.
    + apply Exists_cons_tl, Exists_cons_hd. reflexivity.
  - split; reflexivity.
Defined.

(** X10: when the response holds no result at all, the transcript is the
    empty string, and it is uploaded like any other: a [wav] or [mp3]
    source for which nothing was recognised gets an empty [<key>.txt]. *)
Theorem empty_response_run fuel env event w b n enc data operation polls response :
  names event b n ->
  (file_extension_of n = "wav" /\ PyStr.contains "_converted" n = false /\ enc = "wav")
  \/ (file_extension_of n = "mp3" /\ enc = "mp3") ->
  download_fault env b n = None -> objects w !! (b, n) = Some data ->
  recognize env (config_for enc "de-DE") (gs_uri b n) = inr operation ->
  first_done operation polls -> (polls < fuel)%nat ->
  op_result operation 1000 = inr response ->
  results response = [] ->
  upload_fault env b (transcript_name n) = None ->
  exists w',
    process_audio fuel env event w = Returned tt w'
    /\ objects w' = <[(b, transcript_name n) := ""]> (objects w).
Proof.
  intros Hnames [(Hext & Hmark & ->) | (Hext & ->)] Hdl Hobj Hrec Hdone Hfuel Hres Hempty Hup.
  - eexists. split.
    + eapply (wav_run fuel env event w b n data operation polls response []);
        try eassumption.
      rewrite Hempty. constructor.
    + reflexivity.
  - eexists. split.
    + eapply (mp3_run fuel env event w b n data operation polls response []);
        try eassumption.
      rewrite Hempty. constructor.
    + reflexivity.
Qed.

Lemma empty_response_run_witness :
  exists w',
    process_audio 1 silent_env (demo_event "call.mp3") (demo_world "call.mp3")
    = Returned tt w'
    /\ objects w'
       = <[("b1", transcript_name "call.mp3") := ""]> (objects (demo_world "call.mp3")).
Proof.
  apply (empty_response_run 1 silent_env (demo_event "call.mp3") (demo_world "call.mp3")
           "b1" "call.mp3" "mp3" "bytes" silent_operation 0 {| results := [] |}).
  - apply demo_names. discriminate.
  - right. split; reflexivity.
  - reflexivity.
  - vm_compute. reflexivity.
  - reflexivity.
  - split; [intros j Hj; lia | reflexivity].
  - lia.
  - reflexivity.
  - reflexivity.
  - reflexivity.
Defined.

(** ** The printed preview *)




Example take_counts_characters :
  PyStr.chars "Grüße" = 5%nat /\ PyStr.take 3 "Grüße" = "Grü"
  /\ PyStr.take 9 "Grüße" = "Grüße".
Proof. repeat split. Qed.


